(** * VAM Dependency Scanner: a shallow embedding of [DependencyScanner.py]

    Python strings are modelled as [string]; a character is a code point
    below 256 (Latin-1), which is enough for every predicate the scanner
    applies ([isdigit], [isspace], [lower], comparison by code point).
    Python sets are [gset string], the file system is a [gmap] from paths to
    contents, and Python dicts, whose iteration order is their insertion
    order, are association lists with unique keys. *)

From Stdlib Require Import Ascii ZArith NArith.
From stdpp Require Import base option list gmap strings sorting.

Local Open Scope Z_scope.

(** ** Python [str] primitives *)

Module Py.

Definition code (c : ascii) : N := N_of_ascii c.

(** [str.isdigit] on one code point: the ASCII digits and, below 256, the
    superscripts U+00B2, U+00B3 and U+00B9. *)
Definition isdigit_char (c : ascii) : bool :=
  ((48 <=? code c) && (code c <=? 57))%N
  || (code c =? 178)%N || (code c =? 179)%N || (code c =? 185)%N.

(** The characters [int] accepts as decimal digits. *)
Definition isdecimal_char (c : ascii) : bool :=
  ((48 <=? code c) && (code c <=? 57))%N.

(** [str.isspace] on one code point below 256. *)
Definition isspace_char (c : ascii) : bool :=
  ((9 <=? code c) && (code c <=? 13))%N
  || ((28 <=? code c) && (code c <=? 32))%N
  || (code c =? 133)%N || (code c =? 160)%N.

Fixpoint all_chars (p : ascii → bool) (s : string) : bool :=
  match s with
  | EmptyString => true
  | String c r => p c && all_chars p r
  end.

Definition nonempty (s : string) : bool :=
  match s with EmptyString => false | String _ _ => true end.

(** [s.isdigit()] and [s.isspace()]: false on the empty string. *)
Definition isdigit (s : string) : bool := nonempty s && all_chars isdigit_char s.
Definition isspace (s : string) : bool := nonempty s && all_chars isspace_char s.

Fixpoint int_digits (acc : N) (s : string) : option N :=
  match s with
  | EmptyString => Some acc
  | String c r =>
      if isdecimal_char c then int_digits (acc * 10 + (code c - 48))%N r
      else None
  end.

(** [int(s)] for the strings the scanner passes to it, those for which
    [isdigit] holds: [None] stands for the [ValueError] that Python
    raises on the empty string and on the superscript digits. *)
Definition int (s : string) : option N :=
  if nonempty s then int_digits 0%N s else None.

(** [s.startswith(p)] *)
Fixpoint startswith (s p : string) : bool :=
  match p, s with
  | EmptyString, _ => true
  | String _ _, EmptyString => false
  | String a p', String b s' => Ascii.eqb a b && startswith s' p'
  end.

(** [s[n:]] for [n >= 0] *)
Fixpoint drop (n : nat) (s : string) : string :=
  match n, s with
  | O, _ => s
  | S _, EmptyString => EmptyString
  | S n', String _ r => drop n' r
  end.

(** [s[:n]] for [n >= 0] *)
Fixpoint take (n : nat) (s : string) : string :=
  match n, s with
  | O, _ => EmptyString
  | S _, EmptyString => EmptyString
  | S n', String c r => String c (take n' r)
  end.

(** [s[:-k]] for [k > 0] *)
Definition drop_last (k : nat) (s : string) : string :=
  take (String.length s - k)%nat s.

(** [s.endswith(suffix)] *)
Definition endswith (s suffix : string) : bool :=
  (String.length suffix <=? String.length s)%nat
  && String.eqb (drop (String.length s - String.length suffix)%nat s) suffix.

(** [s.split(sep)] for a one-character separator *)
Fixpoint split (sep : ascii) (s : string) : list string :=
  match s with
  | EmptyString => [EmptyString]
  | String c r =>
      if Ascii.eqb c sep then EmptyString :: split sep r
      else match split sep r with
           | p :: ps => String c p :: ps
           | [] => [String c EmptyString]
           end
  end.

(** [sep.join(parts)] *)
Fixpoint join (sep : string) (parts : list string) : string :=
  match parts with
  | [] => EmptyString
  | [p] => p
  | p :: ps => p +:+ sep +:+ join sep ps
  end.

(** [s.rfind(c)] for a one-character needle, [-1] when absent *)
Fixpoint rfind (c : ascii) (s : string) : Z :=
  match s with
  | EmptyString => -1
  | String a r =>
      let i := rfind c r in
      if 0 <=? i then i + 1 else if Ascii.eqb a c then 0 else -1
  end.

(** [s[i:i+1]], the empty string out of range *)
Definition char_at (i : Z) (s : string) : string :=
  if i <? 0 then EmptyString else take 1 (drop (Z.to_nat i) s).

(** Comparison of strings by code point, as [<] on [str]. *)
Fixpoint str_ltb (a b : string) : bool :=
  match a, b with
  | _, EmptyString => false
  | EmptyString, String _ _ => true
  | String x a', String y b' =>
      (code x <? code y)%N || ((code x =? code y)%N && str_ltb a' b')
  end.

(** [str.lower] on one code point below 256 *)
Definition lower_char (c : ascii) : ascii :=
  let n := code c in
  if ((65 <=? n) && (n <=? 90))%N
     || ((192 <=? n) && (n <=? 222) && negb (n =? 215))%N
  then ascii_of_N (n + 32) else c.

Fixpoint lower (s : string) : string :=
  match s with
  | EmptyString => EmptyString
  | String c r => String (lower_char c) (lower r)
  end.

End Py.

(** ** [os.path] (the POSIX flavour) *)

Module OsPath.

(** [posixpath.basename]: [i = p.rfind('/') + 1; return p[i:]] *)
Definition basename (p : string) : string :=
  let i := Py.rfind "/" p + 1 in
  Py.drop (Z.to_nat i) p.

(** The [while] loop of [genericpath._splitext] that skips leading dots:
    [n] bounds the iterations still possible. *)
Fixpoint splitext_scan (n : nat) (p : string) (filenameIndex dotIndex : Z)
  : string * string :=
  match n with
  | O => (p, EmptyString)
  | S n' =>
      if filenameIndex <? dotIndex then
        if negb (String.eqb (Py.char_at filenameIndex p) ".") then
          (Py.take (Z.to_nat dotIndex) p, Py.drop (Z.to_nat dotIndex) p)
        else splitext_scan n' p (filenameIndex + 1) dotIndex
      else (p, EmptyString)
  end.

(** [posixpath.splitext] *)
Definition splitext (p : string) : string * string :=
  let sepIndex := Py.rfind "/" p in
  let dotIndex := Py.rfind "." p in
  if sepIndex <? dotIndex then
    splitext_scan (S (String.length p)) p (sepIndex + 1) dotIndex
  else (p, EmptyString).

(** [posixpath.join] of two components, the second one relative *)
Definition join (a b : string) : string :=
  if String.eqb (Py.take 1 b) "/" then b
  else if negb (Py.nonempty a) || Py.endswith a "/" then a +:+ b
  else a +:+ "/" +:+ b.

End OsPath.

(** ** [find_dependency_match] *)

(** [splitext(basename(source_file))[0]], the identifier of a package file *)
Definition source_name (source_file : string) : string :=
  fst (OsPath.splitext (OsPath.basename source_file)).

(** Order on the tuples [(int(version_part), source_file)] *)
Definition tuple_ltb (a b : N * string) : bool :=
  (a.1 <? b.1)%N || ((a.1 =? b.1)%N && Py.str_ltb a.2 b.2).

(** [list.sort(reverse=True)]: a stable sort into descending order. *)
Fixpoint insert_desc (x : N * string) (l : list (N * string)) : list (N * string) :=
  match l with
  | [] => [x]
  | y :: l' => if tuple_ltb x y then y :: insert_desc x l' else x :: l
  end.

Definition sort_reverse (l : list (N * string)) : list (N * string) :=
  foldr insert_desc [] l.

(** The body of the loop that fills [matching_files]: at most one tuple per
    source file.  [Py.int] returning [None] is the [except: pass]. *)
Definition version_entry (base_name source_file : string) : list (N * string) :=
  let source_name := source_name source_file in
  if Py.startswith source_name (base_name +:+ ".") then
    let version_part := Py.drop (String.length base_name + 1) source_name in
    if Py.isdigit version_part then
      match Py.int version_part with
      | Some n => [(n, source_file)]
      | None => []
      end
    else []
  else [].

Definition matching_files (base_name : string) (sourceVarFiles : list string)
  : list (N * string) :=
  flat_map (version_entry base_name) sourceVarFiles.

(** The search both version rules run: collect, sort descending, take the
    file of the first tuple ([None] when [matching_files] is empty). *)
Definition highest_version (base_name : string) (sourceVarFiles : list string)
  : option string :=
  match sort_reverse (matching_files base_name sourceVarFiles) with
  | [] => None
  | m :: _ => Some m.2
  end.

Definition exact_match (dependency : string) (sourceVarFiles : list string)
  : option string :=
  List.find (fun source_file => String.eqb (source_name source_file) dependency)
            sourceVarFiles.

Definition latest_match (dependency : string) (sourceVarFiles : list string)
  : option string :=
  if Py.endswith dependency ".latest" then
    highest_version (Py.drop_last 7 dependency) sourceVarFiles
  else None.

Definition fallback_match (dependency : string) (sourceVarFiles : list string)
  : option string :=
  let parts := Py.split "." dependency in
  if (1 <? length parts)%nat then
    highest_version (Py.join "." (removelast parts)) sourceVarFiles
  else None.

Definition find_dependency_match (dependency : string) (sourceVarFiles : list string)
  : option string :=
  match exact_match dependency sourceVarFiles with
  | Some source_file => Some source_file
  | None =>
      match latest_match dependency sourceVarFiles with
      | Some source_file => Some source_file
      | None => fallback_match dependency sourceVarFiles
      end
  end.

(** ** The preset pattern and [re.findall] *)

Module Re.

Inductive quant := One | Star | Plus.

(** One item of a pattern: a character class, its quantifier, and whether
    it stands inside the capturing group. *)
Record atom := Atom { accepts : ascii → bool; repeat : quant; in_group : bool }.

Definition keep (a : atom) (c : ascii) (r : string * string) : string * string :=
  if in_group a then (String c r.1, r.2) else r.

(** A greedy repetition of the class of [a] in front of the rest [k] of
    the pattern: it first takes one more character and gives it back only
    when the rest of the pattern then fails. *)
Fixpoint star (a : atom) (k : string → option (string * string)) (s : string)
  : option (string * string) :=
  match s with
  | String c s' =>
      if accepts a c then
        match star a k s' with
        | Some r => Some (keep a c r)
        | None => k s
        end
      else k s
  | EmptyString => k s
  end.

(** A backtracking matcher anchored at the start of the subject: the
    result is the text of the group and the unconsumed rest. *)
Fixpoint match_here (pat : list atom) (s : string) : option (string * string) :=
  match pat with
  | [] => Some (EmptyString, s)
  | a :: pat' =>
      match repeat a, s with
      | Star, _ => star a (match_here pat') s
      | Plus, String c s' =>
          if accepts a c then keep a c <$> star a (match_here pat') s' else None
      | One, String c s' =>
          if accepts a c then keep a c <$> match_here pat' s' else None
      | _, EmptyString => None
      end
  end.

(** [re.findall] for a pattern with one group whose matches are never
    empty: the leftmost match is recorded and the scan resumes behind it.
    [skip] counts the characters of the last match still to be passed. *)
Fixpoint findall_from (pat : list atom) (skip : nat) (s : string) : list string :=
  match s with
  | EmptyString => []
  | String _ r =>
      match skip with
      | S k => findall_from pat k r
      | O =>
          match match_here pat s with
          | Some (g, rest) =>
              g :: findall_from pat (String.length s - String.length rest - 1) r
          | None => findall_from pat 0 r
          end
      end
  end.

Definition findall (pat : list atom) (s : string) : list string :=
  findall_from pat 0 s.

End Re.

Definition quote : ascii := "034".
Definition is_quote (c : ascii) : bool := Ascii.eqb c quote.
Definition not_quote (c : ascii) : bool := negb (is_quote c).
Definition is_char (x c : ascii) : bool := Ascii.eqb c x.

(** [pattern = r'"([^"]+):/[^"]*"'] *)
Definition pattern : list Re.atom :=
  [ Re.Atom is_quote Re.One false;
    Re.Atom not_quote Re.Plus true;
    Re.Atom (is_char ":") Re.One false;
    Re.Atom (is_char "/") Re.One false;
    Re.Atom not_quote Re.Star false;
    Re.Atom is_quote Re.One false ].

(** [occurences = set(re.findall(pattern, f.read()))] in
    [getPresetDependencies] *)
Definition occurences (text : string) : gset string :=
  list_to_set (Re.findall pattern text).

(** ** [check_name_variation] and the unreferenced-package query of [main] *)

Definition check_name_variation (varName : string) (dependenciesList : list string)
  : bool :=
  let parts := Py.split "." varName in
  let baseName :=
    if Py.isdigit (List.last parts EmptyString)
       || String.eqb (List.last parts EmptyString) "latest"
    then Py.join "." (removelast parts)
    else varName in
  bool_decide (varName ∈ dependenciesList)
  || bool_decide (baseName +:+ ".latest" ∈ dependenciesList).

(** The key [str.lower] of [sorted] *)
Definition lower_le (a b : string) : Prop :=
  Py.str_ltb (Py.lower b) (Py.lower a) = false.

#[global] Instance lower_le_dec : RelDecision lower_le.
Proof. intros a b. unfold lower_le. apply _. Defined.

Definition noDependencyVar (allVarList : gset string) (allDepVars : list string)
  : list string :=
  List.filter (fun var => negb (check_name_variation var allDepVars))
              (elements allVarList).

Definition noDependencyPreset (allVarList : gset string) (allDepVarsPresets : list string)
  : list string :=
  List.filter (fun var => negb (check_name_variation var allDepVarsPresets))
              (elements allVarList).

Definition noDependency (allVarList : gset string)
    (allDepVars allDepVarsPresets : list string) : list string :=
  merge_sort lower_le
    (elements ((list_to_set (noDependencyVar allVarList allDepVars) : gset string)
               ∩ list_to_set (noDependencyPreset allVarList allDepVarsPresets))).

(** ** Python dicts: association lists in insertion order *)

Section dict.
Context {V : Type}.

Fixpoint dict_get (k : string) (d : list (string * V)) : option V :=
  match d with
  | [] => None
  | (k', v) :: d' => if String.eqb k' k then Some v else dict_get k d'
  end.

(** [d[k] = v]: an existing key keeps its place, a new one goes last. *)
Fixpoint dict_set (k : string) (v : V) (d : list (string * V)) : list (string * V) :=
  match d with
  | [] => [(k, v)]
  | (k', v') :: d' =>
      if String.eqb k' k then (k, v) :: d' else (k', v') :: dict_set k v d'
  end.

Definition keys (d : list (string * V)) : list string := d.*1.
End dict.

(** ** Manifests: [getDependencies], [getMetaDependencies], [getAllVars] *)

(** The value [json.load] returns; the members of an object are those of
    the dict it builds, one per key. *)
#[warnings="-register-all"]
Inductive json :=
  | JNull
  | JBool (b : bool)
  | JNumber (literal : string)
  | JString (s : string)
  | JArray (items : list json)
  | JObject (members : list (string * json)).

Inductive exn :=
  | Exception (msg : string)   (** raised by the scanner itself *)
  | LibraryError (msg : string)  (** raised by zipfile, json, open or shutil *)
  | TypeError
  | AttributeError.

(** What [ZipFile(varFile)], [myzip.open('meta.json')] and [load] give:
    an exception, the [KeyError] of a missing entry, or the parsed value. *)
Inductive meta_read :=
  | ReadFailed (error : exn)
  | NoMetaJson
  | MetaData (data : json).

(** The lines [dpPrint] writes that the properties below speak about;
    printing itself is taken to succeed. *)
Inductive report :=
  | ManifestError (varFilename : string) (error : exn)
  | SatisfiedLine (dependency : string)
  | CopiedLine (name dest_file : string)
  | CopyError (match_file dest_file : string) (error : exn)
  | RunError (error : exn).

(** The file system as a run observes it: the results of [glob],
    [exists], [isdir], and of reading the manifest inside an archive
    ([zip_meta]) or in a folder ([file_meta]); what [os.makedirs(path,
    exist_ok=True)] raises, if anything ([makedirs]: the path is a regular
    file, a parent cannot be written); and what [shutil.copy2(src, dst)]
    raises, if anything, on a source that can be read ([copy_error]: the
    folder of [dst] cannot be written, the disk is full). *)
Record world := World {
  safe_glob : string → list string;
  path_exists : string → bool;
  isdir : string → bool;
  zip_meta : string → meta_read;
  file_meta : string → exn + json;
  makedirs : string → option exn;
  copy_error : string → string → option exn;
}.

Fixpoint str_contains (s needle : string) : bool :=
  Py.startswith s needle
  || match s with
     | EmptyString => false
     | String _ r => str_contains r needle
     end.

Definition is_dependencies (j : json) : bool :=
  match j with JString s => String.eqb s "dependencies" | _ => false end.

(** [if 'dependencies' not in data: return None, set()] followed by
    [return None, set(data['dependencies'].keys())], with the [TypeError]
    and [AttributeError] a manifest of another shape raises. *)
Definition declared (data : json) : option exn * gset string :=
  match data with
  | JObject members =>
      match dict_get "dependencies" members with
      | None => (None, ∅)
      | Some (JObject dependencies) => (None, list_to_set (keys dependencies))
      | Some _ => (Some AttributeError, ∅)
      end
  | JArray items =>
      if existsb is_dependencies items then (Some TypeError, ∅) else (None, ∅)
  | JString s =>
      if str_contains s "dependencies" then (Some TypeError, ∅) else (None, ∅)
  | JNull | JBool _ | JNumber _ => (Some TypeError, ∅)
  end.

Definition getDependencies (w : world) (varFile : string) : option exn * gset string :=
  match zip_meta w varFile with
  | ReadFailed error => (Some error, ∅)
  | NoMetaJson => (Some (Exception ("meta.json not found in " +:+ varFile)), ∅)
  | MetaData data => declared data
  end.

Definition getMetaDependencies (w : world) (folder : string) : option exn * gset string :=
  let filename := OsPath.join folder "meta.json" in
  match file_meta w filename with
  | inl error => (Some error, ∅)
  | inr data => declared data
  end.

(** [allDependencies[key].update(val)] or [allDependencies[key] = val] for
    one key of [dependenciesDict] *)
Definition add_dependent (dependent : string)
    (allDependencies : list (string * gset string)) (key : string)
  : list (string * gset string) :=
  match dict_get key allDependencies with
  | Some dependents => dict_set key (dependents ∪ {[dependent]}) allDependencies
  | None => dict_set key {[dependent]} allDependencies
  end.

Definition read_manifest (w : world) (varFilename : string) : option exn * gset string :=
  if isdir w varFilename then getMetaDependencies w varFilename
  else getDependencies w varFilename.

(** One round of the second loop of [getAllVars]: an error is printed and
    the file passed over; otherwise every declared name receives the file
    as a dependent (none when [dependencies] is empty). *)
Definition scan_var (w : world)
    (acc : list (string * gset string) * list report) (varFilename : string)
  : list (string * gset string) * list report :=
  match read_manifest w varFilename with
  | (Some error, _) => (acc.1, acc.2 ++ [ManifestError varFilename error])
  | (None, dependencies) =>
      (foldl (add_dependent (OsPath.basename varFilename)) acc.1 (elements dependencies),
       acc.2)
  end.

(** The files [getAllVars] scans: those under [AddonPackages] when it
    exists, else those under the directory itself. *)
Definition discover (w : world) (directoryPath : string) : list string :=
  let addon_path := OsPath.join directoryPath "AddonPackages" in
  if negb (path_exists w addon_path)
  then safe_glob w (OsPath.join directoryPath "**/*.var")
  else safe_glob w (OsPath.join addon_path "**/*.var").

(** The two loops of [getAllVars] over the files found *)
Definition scan_vars (w : world) (vars : list string)
  : gset string * list (string * gset string) * list report :=
  let allVarList : gset string := list_to_set (source_name <$> vars) in
  let r := foldl (scan_var w) ([], []) vars in
  (allVarList, r.1, r.2).

Definition getAllVars (w : world) (directoryPath : string)
  : gset string * list (string * gset string) * list report :=
  scan_vars w (discover w directoryPath).

(** ** [checkMissingReferences] *)

(** The three classification dicts, the contents of the files that
    [exists(dest_file)] and [shutil.copy2] act on, and the lines printed. *)
Record refs := Refs {
  missingRefs : list (string * gset string);
  foundRefs : list (string * (string * gset string));
  alreadySatisfiedRefs : list (string * (string * gset string));
  files : gmap string string;
  printed : list report;
}.

(** The test of the loop over [mainVarList] *)
Definition satisfies (dependency var_name : string) : bool :=
  String.eqb var_name dependency
  || (Py.endswith dependency ".latest"
      && Py.startswith var_name (Py.drop_last 7 dependency)).

(** [shutil.copy2(src, dst)]: raises when [src] cannot be read, that is,
    has no contents in [fs], and when the world refuses the copy;
    otherwise [dst] receives the contents of [src].  A copy that raises
    leaves the files as they are. *)
Definition copy2 (w : world) (fs : gmap string string) (src dst : string)
  : exn + gmap string string :=
  match fs !! src with
  | Some content =>
      match copy_error w src dst with
      | Some error => inl error
      | None => inr (<[dst := content]> fs)
      end
  | None => inl (LibraryError ("No such file or directory: " +:+ src))
  end.

(** [if destPath: ...] after a match was recorded *)
Definition copy_found (w : world) (destPath : option string) (match_file : string)
    (st : refs) : refs :=
  match destPath with
  | None => st
  | Some dest =>
      if Py.nonempty dest then
        let dest_file := OsPath.join dest (OsPath.basename match_file) in
        if bool_decide (is_Some (files st !! dest_file)) then st
        else
          match copy2 w (files st) match_file dest_file with
          | inr fs =>
              Refs (missingRefs st) (foundRefs st) (alreadySatisfiedRefs st) fs
                   (printed st ++ [CopiedLine (OsPath.basename match_file) dest_file])
          | inl e =>
              Refs (missingRefs st) (foundRefs st) (alreadySatisfiedRefs st) (files st)
                   (printed st ++ [CopyError match_file dest_file e])
          end
      else st
  end.

(** [not dependency or dependency.isspace()] *)
Definition blank (dependency : string) : bool :=
  negb (Py.nonempty dependency) || Py.isspace dependency.

(** The body of [for dependency, dependents in mainDependencies.items()] *)
Definition classify (w : world) (verbose : bool) (mainVarList : gset string)
    (sourceVarFiles : list string) (destPath : option string)
    (st : refs) (item : string * gset string) : refs :=
  let dependency := item.1 in
  let dependents := item.2 in
  if blank dependency then st
  else
    match List.find (satisfies dependency) (elements mainVarList) with
    | Some var_name =>
        Refs (missingRefs st) (foundRefs st)
             (dict_set dependency (var_name, dependents) (alreadySatisfiedRefs st))
             (files st)
             (if verbose then printed st ++ [SatisfiedLine dependency] else printed st)
    | None =>
        let missing :=
          Refs (dict_set dependency dependents (missingRefs st)) (foundRefs st)
               (alreadySatisfiedRefs st) (files st) (printed st) in
        match find_dependency_match dependency sourceVarFiles with
        | Some match_file =>
            if Py.nonempty match_file then
              copy_found w destPath match_file
                (Refs (missingRefs st)
                      (dict_set dependency (match_file, dependents) (foundRefs st))
                      (alreadySatisfiedRefs st) (files st) (printed st))
            else missing
        | None => missing
        end
    end.

Definition classify_all (w : world) (verbose : bool) (mainVarList : gset string)
    (mainDependencies : list (string * gset string))
    (sourceVarFiles : list string) (destPath : option string)
    (fs : gmap string string) : refs :=
  foldl (classify w verbose mainVarList sourceVarFiles destPath)
        (Refs [] [] [] fs []) mainDependencies.

(** [if destPath: os.makedirs(destPath, exist_ok=True)]: the error raised,
    if any; nothing is created for [None] and for the empty string. *)
Definition create_destination (w : world) (destPath : option string) : option exn :=
  match destPath with
  | Some dest => if Py.nonempty dest then makedirs w dest else None
  | None => None
  end.

(** The scans of the two libraries, the creation of the destination and
    the classification.  An error of [os.makedirs] reaches the outer
    [except]: it is printed and [{}, {}] returned, no name having been
    classified and no file copied. *)
Definition checkMissingReferences (w : world) (verbose : bool)
    (mainPath sourcePath : string) (destPath : option string)
    (fs : gmap string string) : refs :=
  let scan := getAllVars w mainPath in
  let mainVarList := scan.1.1 in
  let mainDependencies := scan.1.2 in
  let sourceVarFiles := safe_glob w (OsPath.join sourcePath "**/*.var") in
  match create_destination w destPath with
  | Some error => Refs [] [] [] fs [RunError error]
  | None =>
      classify_all w verbose mainVarList mainDependencies sourceVarFiles destPath fs
  end.

(** ** Vocabulary of the statements *)

(** A source file is a candidate of version [n] for [base] when its
    identifier is [base], a dot, and a decimal numeral of value [n]. *)
Definition candidate (base source_file : string) (n : N) : Prop :=
  ∃ v, source_name source_file = base +:+ "." +:+ v ∧ Py.int v = Some n.

(** What the search of the two version rules is to return: a candidate of
    the pool whose version no other candidate exceeds, and nothing exactly
    when the pool holds no candidate. *)
Definition highest_in (base : string) (pool : list string) (result : option string)
  : Prop :=
  match result with
  | Some f =>
      f ∈ pool ∧
      ∃ n, candidate base f n ∧
           ∀ g k, g ∈ pool → candidate base g k → (k ≤ n)%N
  | None => ∀ g k, g ∈ pool → ¬ candidate base g k
  end.

(** The first tuple of the list carries the greatest number. *)
Definition head_greatest (l : list (N * string)) : Prop :=
  match l with
  | [] => True
  | m :: _ => ∀ y, y ∈ l → (y.1 ≤ m.1)%N
  end.

(** The terminal state of one dependency name *)
Inductive verdict :=
  | Skipped
  | Satisfied (var_name : string)
  | Resolved (match_file : string)
  | Missing.

(** The branch [classify] takes for a name *)
Definition verdict_of (mainVarList : gset string) (sourceVarFiles : list string)
    (dependency : string) : verdict :=
  if blank dependency then Skipped
  else
    match List.find (satisfies dependency) (elements mainVarList) with
    | Some var_name => Satisfied var_name
    | None =>
        match find_dependency_match dependency sourceVarFiles with
        | Some match_file => if Py.nonempty match_file then Resolved match_file else Missing
        | None => Missing
        end
    end.

(** The entries of the three dicts under one key *)
Definition recorded (k : string) (st : refs)
  : option (string * gset string) * option (string * gset string) * option (gset string) :=
  (dict_get k (alreadySatisfiedRefs st), dict_get k (foundRefs st),
   dict_get k (missingRefs st)).

(** What a verdict has [classify] record for a name *)
Definition expected (v : verdict) (dependents : gset string)
  : option (string * gset string) * option (string * gset string) * option (gset string) :=
  match v with
  | Skipped => (None, None, None)
  | Satisfied var_name => (Some (var_name, dependents), None, None)
  | Resolved match_file => (None, Some (match_file, dependents), None)
  | Missing => (None, None, Some dependents)
  end.

(** The three dicts of a state *)
Definition tables (st : refs) :=
  (missingRefs st, foundRefs st, alreadySatisfiedRefs st).

(** A small installation: a main library of four package files, one with
    five declared dependencies, one without a manifest, one that is not an
    archive; and a source library of two. *)
Definition sample_world : world := {|
  safe_glob pattern :=
    if String.eqb pattern "/vam/AddonPackages/**/*.var" then
      ["/vam/AddonPackages/Alice.Hair.3.var"; "/vam/AddonPackages/Foo.Barber.2.var";
       "/vam/AddonPackages/Broken.Pack.1.var"; "/vam/AddonPackages/ .var"]
    else if String.eqb pattern "/src/**/*.var" then
      ["/src/Bob.Skin.1.var"; "/src/Bob.Skin.4.var"]
    else [];
  path_exists p := String.eqb p "/vam/AddonPackages";
  isdir _ := false;
  zip_meta varFile :=
    if String.eqb varFile "/vam/AddonPackages/Alice.Hair.3.var" then
      MetaData (JObject [("licenseType", JString "CC BY");
                         ("dependencies",
                          JObject [("Bob.Skin.latest", JObject []);
                                   ("Carol.Pose.2", JObject []);
                                   ("Foo.Bar.latest", JObject []);
                                   ("Foo.Barber.2", JObject []);
                                   (" ", JObject [])])])
    else if String.eqb varFile "/vam/AddonPackages/Foo.Barber.2.var" then
      MetaData (JObject [("licenseType", JString "CC BY")])
    else if String.eqb varFile "/vam/AddonPackages/Broken.Pack.1.var" then NoMetaJson
    else ReadFailed (LibraryError "File is not a zip file");
  file_meta _ := inl (LibraryError "No such file or directory");
  makedirs _ := None;
  copy_error _ _ := None
|}.

Definition sample_files : gmap string string :=
  {[ "/src/Bob.Skin.4.var" := "skin4"; "/src/Bob.Skin.1.var" := "skin1" ]}.




(** ** Presets: [getPresetDependencies] *)

(** [str.lstrip('/')] *)
Fixpoint lstrip_sep (s : string) : string :=
  match s with
  | String c r => if Ascii.eqb c "/" then lstrip_sep r else s
  | EmptyString => EmptyString
  end.

(** A component [PurePosixPath] keeps: neither empty nor a single dot *)
Definition kept_part (x : string) : bool :=
  Py.nonempty x && negb (String.eqb x ".").

(** [PurePosixPath(p).parts]: the root, [//] for exactly two leading
    slashes and [/] for any other number of them, then the components. *)
Definition path_parts (p : string) : list string :=
  let stripped := lstrip_sep p in
  let slashes := (String.length p - String.length stripped)%nat in
  let root :=
    if (slashes =? 0)%nat then []
    else if (slashes =? 2)%nat then ["//"] else ["/"] in
  root ++ List.filter kept_part (Py.split "/" stripped).

(** The loop [for i, part in enumerate(parts)] with its [break]: the index
    of the first part equal to [Custom], [-1] when there is none. *)
Fixpoint custom_index_from (i : Z) (parts : list string) : Z :=
  match parts with
  | [] => -1
  | part :: rest =>
      if String.eqb part "Custom" then i else custom_index_from (i + 1) rest
  end.

(** [presetName]: the path behind the first [Custom] component, or the
    file name when there is no such component or nothing behind it. *)
Definition presetName (vap : string) : string :=
  let parts := path_parts vap in
  let custom_index := custom_index_from 0 parts in
  if (0 <=? custom_index) && (custom_index <? Z.of_nat (length parts) - 1) then
    Py.join "/" (drop (Z.to_nat (custom_index + 1)) parts)
  else OsPath.basename vap.

(** [sorted] on a list of [str] *)
Fixpoint insert_asc (x : string) (l : list string) : list string :=
  match l with
  | [] => [x]
  | y :: l' => if Py.str_ltb y x then y :: insert_asc x l' else x :: l
  end.

(** [sorted(safe_glob(...))] *)
Definition sorted_str (l : list string) : list string := foldr insert_asc [] l.

(** The lines [getPresetDependencies] prints that the properties below
    speak about *)
Inductive preset_report :=
  | CustomMissing (customPathFull : string)
  | PresetError (vap : string) (error : exn).

(** One round of the loop over the preset files; [read_text] is
    [open(vap, 'r', encoding='utf-8')] followed by [f.read()]. *)
Definition scan_preset (read_text : string → exn + string)
    (acc : list (string * gset string) * list preset_report) (vap : string)
  : list (string * gset string) * list preset_report :=
  match read_text vap with
  | inl error => (acc.1, acc.2 ++ [PresetError vap error])
  | inr text =>
      (foldl (add_dependent (presetName vap)) acc.1 (elements (occurences text)),
       acc.2)
  end.

(** [getPresetDependencies]: nothing but a warning when the [Custom]
    folder is absent, else the loop over the sorted preset files. *)
Definition getPresetDependencies (w : world) (read_text : string → exn + string)
    (customPath : string) : list (string * gset string) * list preset_report :=
  let customPathFull := OsPath.join customPath "Custom" in
  if negb (path_exists w customPathFull) then ([], [CustomMissing customPathFull])
  else
    let presets := sorted_str (safe_glob w (OsPath.join customPathFull "**/*.vap")) in
    foldl (scan_preset read_text) ([], []) presets.

(** ** The name argument, the combined mapping and the name query of [main] *)

(** [parts = args.name.split('.')] and the removal of a last segment
    [var] *)
Definition name_argument (name : string) : string :=
  let parts := Py.split "." name in
  if String.eqb (List.last parts "") "var" then Py.join "." (removelast parts)
  else name.

(** One round of the loop that adds [allPresetDependencies] to the copy of
    [allVarDependencies] *)
Definition merge_entry (allDependencies : list (string * gset string))
    (item : string * gset string) : list (string * gset string) :=
  match dict_get item.1 allDependencies with
  | Some dependents => dict_set item.1 (dependents ∪ item.2) allDependencies
  | None => dict_set item.1 item.2 allDependencies
  end.

(** [allDependencies = {**allVarDependencies}] and the loop over
    [allPresetDependencies.items()]; only the combined dict is read
    afterwards. *)
Definition combine_dependencies
    (allVarDependencies allPresetDependencies : list (string * gset string))
  : list (string * gset string) :=
  foldl merge_entry allVarDependencies allPresetDependencies.

(** [args.name.lower() in var.lower()] *)
Definition name_in (name var : string) : bool :=
  str_contains (Py.lower var) (Py.lower name).

(** [sorted(..., key=str.lower)]: a stable sort on the lowered names *)
Fixpoint insert_lower (x : string) (l : list string) : list string :=
  match l with
  | [] => [x]
  | y :: l' =>
      if Py.str_ltb (Py.lower y) (Py.lower x) then y :: insert_lower x l' else x :: l
  end.

(** [sorted(l, key=str.lower)] *)
Definition sorted_lower (l : list string) : list string := foldr insert_lower [] l.

(** [foundDepVars]: the keys of the combined mapping that contain the
    name, whatever the case, sorted *)
Definition foundDepVars (name : string) (allDependencies : list (string * gset string))
  : list string :=
  sorted_lower (List.filter (name_in name) (keys allDependencies)).

(** ** Further vocabulary *)

(** The first tuple of the list is below no tuple of the list. *)
Definition head_maximal (l : list (N * string)) : Prop :=
  match l with
  | [] => True
  | m :: _ => ∀ y, y ∈ l → tuple_ltb m y = false
  end.

(** The parsed values that raise no error: an object without the key
    [dependencies] or with an object under it, and also a list without the
    string [dependencies] and a string that does not contain it. *)
Definition accepted (data : json) : Prop :=
  (∃ members, data = JObject members
     ∧ (dict_get "dependencies" members = None
        ∨ ∃ dependencies, dict_get "dependencies" members = Some (JObject dependencies)))
  ∨ (∃ items, data = JArray items ∧ JString "dependencies" ∉ items)
  ∨ (∃ s, data = JString s ∧ str_contains s "dependencies" = false).

(** [x] is a dependent of [k] in the mapping [d]. *)
Definition edge (d : list (string * gset string)) (k x : string) : Prop :=
  ∃ dependents, dict_get k d = Some dependents ∧ x ∈ dependents.

(** The file [f] declares [k] and is read without error. *)
Definition declares (w : world) (f k : string) : Prop :=
  (read_manifest w f).1 = None ∧ k ∈ (read_manifest w f).2.

(** No key of the mapping has an empty set of dependents. *)
Definition inhabited_values (d : list (string * gset string)) : Prop :=
  ∀ k dependents, dict_get k d = Some dependents → dependents ≠ ∅.

(** Two presets under [/vam/Custom]: one names a package twice, the
    other cannot be decoded. *)
Definition sample_presets : world := {|
  safe_glob pattern :=
    if String.eqb pattern "/vam/Custom/**/*.vap" then
      ["/vam/Custom/Hair/long.vap"; "/vam/Custom/Hair/bad.vap"]
    else [];
  path_exists p := String.eqb p "/vam/Custom";
  isdir _ := false;
  zip_meta _ := NoMetaJson;
  file_meta _ := inl (LibraryError "No such file or directory");
  makedirs _ := None;
  copy_error _ _ := None
|}.

(** What reading the two presets gives *)
Definition sample_read_text (vap : string) : exn + string :=
  if String.eqb vap "/vam/Custom/Hair/long.vap" then
    inr ("{ id : " +:+ String quote ("Bob.Skin.4:/Custom/Hair/h.vab"
         +:+ String quote (", tex : "
         +:+ String quote ("Bob.Skin.4:/Custom/Hair/t.png" +:+ String quote " }"))))
  else inl (LibraryError "invalid start byte").

(** ** A later run: the scans over the files an earlier run left *)

(** How the contents of a file read: as an archive with its manifest, and
    as a JSON document. *)
Record reader := Reader {
  as_archive : string → meta_read;
  as_json : string → exn + json;
}.

(** No component of a path below the directory starts with a dot: [glob]
    passes over hidden files and folders. *)
Definition visible (rel : string) : bool :=
  forallb (λ x, negb (Py.startswith x ".")) (Py.split "/" rel).

(** [glob(dir + '**/*' + suffix, recursive=True)] over the files of a map,
    for a [dir] that ends in a separator and holds none of the characters
    [glob] gives a meaning to; [glob] promises no order, the keys are taken
    in the order of the map. *)
Definition glob_suffix (suffix : string) (fs : gmap string string) (dir : string)
  : list string :=
  List.filter
    (λ p, Py.startswith p dir && Py.endswith p suffix
          && visible (Py.drop (String.length dir) p))
    (elements (dom fs)).

Definition glob_files (fs : gmap string string) (pattern : string) : list string :=
  let dir := Py.drop_last 8 pattern in
  let tail := Py.drop (String.length dir) pattern in
  if String.eqb tail "**/*.var" then glob_suffix ".var" fs dir
  else if String.eqb tail "**/*.vap" then glob_suffix ".vap" fs dir
  else [].

(** The path is a folder of the map: some file lies below it. *)
Definition folder_of (fs : gmap string string) (p : string) : bool :=
  existsb (λ q, Py.startswith q (p +:+ "/")) (elements (dom fs)).

(** The path is a file of the map, or lies below one. *)
Definition blocked_by_file (fs : gmap string string) (p : string) : bool :=
  existsb (λ q, String.eqb q p || Py.startswith p (q +:+ "/")) (elements (dom fs)).

(** The world the files of a map show to a run that starts on them, every
    folder being writable. *)
Definition observed (rd : reader) (fs : gmap string string) : world := {|
  safe_glob := glob_files fs;
  path_exists p := bool_decide (is_Some (fs !! p)) || folder_of fs p;
  isdir := folder_of fs;
  zip_meta p :=
    match fs !! p with
    | Some content => as_archive rd content
    | None => ReadFailed (LibraryError ("No such file or directory: " +:+ p))
    end;
  file_meta p :=
    match fs !! p with
    | Some content => as_json rd content
    | None => inl (LibraryError ("No such file or directory: " +:+ p))
    end;
  makedirs p :=
    if blocked_by_file fs p then Some (LibraryError ("File exists: " +:+ p)) else None;
  copy_error _ _ := None
|}.

(** A main library with one package, [Alice.Hair.3], that depends on
    [Bob.Skin.latest]; a source library with [Bob.Skin.4], which depends on
    [Eve.Tex.1], and with [Eve.Tex.1]. *)
Definition nested_files : gmap string string :=
  {[ "/vam/AddonPackages/Alice.Hair.3.var" := "alice";
     "/src/Bob.Skin.4.var" := "bob";
     "/src/Eve.Tex.1.var" := "eve" ]}.

Definition nested_reader : reader := {|
  as_archive content :=
    if String.eqb content "alice" then
      MetaData (JObject [("dependencies", JObject [("Bob.Skin.latest", JObject [])])])
    else if String.eqb content "bob" then
      MetaData (JObject [("dependencies", JObject [("Eve.Tex.1", JObject [])])])
    else MetaData (JObject [("dependencies", JObject [])]);
  as_json _ := inl (LibraryError "Expecting value")
|}.

(** The sample installation where [/locked] is a regular file, so that it
    cannot be created as a folder, and where nothing can be written below
    [/readonly]. *)
Definition sample_refusing : world := {|
  safe_glob := safe_glob sample_world;
  path_exists := path_exists sample_world;
  isdir := isdir sample_world;
  zip_meta := zip_meta sample_world;
  file_meta := file_meta sample_world;
  makedirs dest :=
    if String.eqb dest "/locked" then Some (LibraryError "File exists: /locked")
    else None;
  copy_error src dst :=
    if Py.startswith dst "/readonly/"
    then Some (LibraryError ("Permission denied: " +:+ dst)) else None
|}.

(** * Properties *)

(** ** Examples *)

Example splitext_var : OsPath.splitext "Foo.Bar.10.var" = ("Foo.Bar.10", ".var").
Proof. reflexivity. Qed.

Example splitext_dotfile : OsPath.splitext "..var" = ("..var", "").
Proof. reflexivity. Qed.

Example source_name_path : source_name "/src/sub/Foo.Bar.10.var" = "Foo.Bar.10".
Proof. reflexivity. Qed.

Example match_latest :
  find_dependency_match "Foo.Bar.latest"
    ["/s/Foo.Bar.1.var"; "/s/Foo.Bar.2.var"; "/s/Foo.Bar.10.var"]
  = Some "/s/Foo.Bar.10.var".
Proof. reflexivity. Qed.

Example match_fallback :
  find_dependency_match "Foo.Bar.3" ["/s/Foo.Bar.2.var"; "/s/Foo.Bar.5.var"]
  = Some "/s/Foo.Bar.5.var".
Proof. reflexivity. Qed.

Example match_none :
  find_dependency_match "Baz.Qux.latest" ["/s/Foo.Bar.1.var"] = None.
Proof. reflexivity. Qed.

(** Two files of one version: the greater path wins. *)
Example match_tie :
  find_dependency_match "Foo.Bar.latest" ["/s/Foo.Bar.1.var"; "/s/Foo.Bar.01.var"]
  = Some "/s/Foo.Bar.1.var".
Proof. reflexivity. Qed.

(** A superscript digit passes [isdigit] and is refused by [int]. *)
Example match_superscript :
  Py.isdigit (String "178" "") = true
  ∧ find_dependency_match "Foo.Bar.latest" [String.append "/s/Foo.Bar." (String "178" ".var")]
    = None.
Proof. split; reflexivity. Qed.

(** ** Strings *)

Section strings.
Local Arguments String.append !_ _ /.

Lemma append_nil_r (s : string) : s +:+ "" = s.
Proof. induction s as [|c s IH]; simpl; [done | by rewrite IH]. Qed.

Lemma append_assoc (a b c : string) : (a +:+ b) +:+ c = a +:+ b +:+ c.
Proof. induction a as [|x a IH]; simpl; [done | by rewrite IH]. Qed.

Lemma append_length (a b : string) :
  String.length (a +:+ b) = (String.length a + String.length b)%nat.
Proof. induction a as [|x a IH]; simpl; [done | by rewrite IH]. Qed.

Lemma startswith_app (p r : string) : Py.startswith (p +:+ r) p = true.
Proof.
  induction p as [|c p IH]; simpl; [by destruct r |].
  by rewrite Ascii.eqb_refl, IH.
Qed.

Lemma startswith_inv (s p : string) :
  Py.startswith s p = true → s = p +:+ Py.drop (String.length p) s.
Proof.
  revert s; induction p as [|c p IH]; intros s H; simpl; [done |].
  destruct s as [|b s]; simpl in H; [done |].
  apply andb_true_iff in H as [Hc Hs]. apply Ascii.eqb_eq in Hc as ->.
  simpl. f_equal. by apply IH.
Qed.

Lemma startswith_iff (s p : string) :
  Py.startswith s p = true ↔ ∃ r, s = p +:+ r.
Proof.
  split.
  - intros H. eexists. by apply startswith_inv.
  - intros [r ->]. apply startswith_app.
Qed.

Lemma drop_app (p r : string) : Py.drop (String.length p) (p +:+ r) = r.
Proof. induction p as [|c p IH]; simpl; [done | apply IH]. Qed.

Lemma take_app (p r : string) : Py.take (String.length p) (p +:+ r) = p.
Proof. induction p as [|c p IH]; simpl; [done | by rewrite IH]. Qed.

Lemma take_drop (n : nat) (s : string) : Py.take n s +:+ Py.drop n s = s.
Proof.
  revert s; induction n as [|n IH]; intros [|c s]; simpl; try done.
  by rewrite IH.
Qed.

(** A string that ends with [suffix] is its [s[:-len(suffix)]] followed by
    [suffix]. *)
Lemma endswith_inv (s suffix : string) :
  Py.endswith s suffix = true →
  s = Py.drop_last (String.length suffix) s +:+ suffix.
Proof.
  unfold Py.endswith, Py.drop_last. intros H.
  apply andb_true_iff in H as [_ H]. apply String.eqb_eq in H.
  set (n := (String.length s - String.length suffix)%nat) in *.
  rewrite <- (take_drop n s) at 1. by rewrite H.
Qed.

Lemma endswith_app (b suffix : string) : Py.endswith (b +:+ suffix) suffix = true.
Proof.
  unfold Py.endswith. rewrite append_length. apply andb_true_iff. split.
  - apply Nat.leb_le. lia.
  - replace (String.length b + String.length suffix - String.length suffix)%nat
      with (String.length b) by lia.
    rewrite drop_app. apply String.eqb_refl.
Qed.

Lemma drop_last_app (b suffix : string) :
  Py.drop_last (String.length suffix) (b +:+ suffix) = b.
Proof.
  unfold Py.drop_last. rewrite append_length.
  replace (String.length b + String.length suffix - String.length suffix)%nat
    with (String.length b) by lia.
  apply take_app.
Qed.

(** [split] and [join] *)

Lemma split_not_nil (c : ascii) (s : string) : Py.split c s ≠ [].
Proof.
  induction s as [|a s IH]; simpl; [done |].
  destruct (Ascii.eqb a c); [done |]. by destruct (Py.split c s).
Qed.

Lemma join_cons (sep p : string) (ps : list string) :
  ps ≠ [] → Py.join sep (p :: ps) = p +:+ sep +:+ Py.join sep ps.
Proof. by destruct ps. Qed.

Lemma join_head (sep : string) (a : ascii) (p : string) (ps : list string) :
  Py.join sep (String a p :: ps) = String a (Py.join sep (p :: ps)).
Proof. by destruct ps. Qed.

Lemma join_split (c : ascii) (s : string) :
  Py.join (String c "") (Py.split c s) = s.
Proof.
  induction s as [|a s IH]; [done |]. simpl Py.split.
  destruct (Ascii.eqb a c) eqn:E.
  - apply Ascii.eqb_eq in E as ->.
    rewrite join_cons by apply split_not_nil. simpl. by rewrite IH.
  - pose proof (split_not_nil c s) as Hne.
    destruct (Py.split c s) as [|p ps]; [done |].
    by rewrite join_head, IH.
Qed.

Lemma split_app (c : ascii) (a b : string) :
  Py.split c (a +:+ String c b) = Py.split c a ++ Py.split c b.
Proof.
  induction a as [|x a IH]; simpl.
  - by rewrite Ascii.eqb_refl.
  - destruct (Ascii.eqb x c); rewrite IH; [done |].
    pose proof (split_not_nil c a). by destruct (Py.split c a).
Qed.

Lemma split_no_sep (c : ascii) (s : string) :
  Py.rfind c s = -1 → Py.split c s = [s].
Proof.
  induction s as [|a s IH]; simpl; [done |].
  destruct (0 <=? Py.rfind c s) eqn:E; [lia |].
  destruct (Ascii.eqb a c); [done |]. intros _.
  rewrite IH; [done |].
  assert (Hr : ∀ t, -1 ≤ Py.rfind c t).
  { induction t as [|y t IHt]; simpl; [lia |].
    destruct (0 <=? Py.rfind c t); [lia |]. destruct (Ascii.eqb y c); lia. }
  specialize (Hr s). lia.
Qed.

Lemma join_removelast (sep : string) (l : list string) :
  (1 < length l)%nat →
  Py.join sep l = Py.join sep (removelast l) +:+ sep +:+ List.last l "".
Proof.
  induction l as [|p l IH]; [simpl; lia |]. intros Hl.
  destruct l as [|q l]; [simpl in *; lia |]. clear Hl.
  destruct l as [|r l]; [done |].
  rewrite join_cons by done. rewrite IH by (simpl; lia).
  change (removelast (p :: q :: r :: l)) with (p :: removelast (q :: r :: l)).
  change (List.last (p :: q :: r :: l) "") with (List.last (q :: r :: l) "").
  rewrite join_cons by (by destruct l). by rewrite !append_assoc.
Qed.

Lemma removelast_snoc {A} (l : list A) (x : A) : removelast (l ++ [x]) = l.
Proof. apply removelast_last. Qed.

(** Dropping the last dot-segment of [b.t], for a segment [t] without
    dots, gives [b] back. *)
Lemma base_of_qualified (b t : string) :
  Py.rfind "." t = -1 →
  Py.join "." (removelast (Py.split "." (b +:+ "." +:+ t))) = b.
Proof.
  intros Ht. change ("." +:+ t) with (String "."%char t).
  rewrite split_app, (split_no_sep _ t Ht), removelast_snoc.
  apply join_split.
Qed.

Lemma str_contains_dot (a : ascii) (s : string) :
  str_contains (String a s) "." = Ascii.eqb "." a || str_contains s ".".
Proof.
  change (str_contains (String a s) ".")
    with (Ascii.eqb "." a && Py.startswith s "" || str_contains s ".").
  destruct s; by rewrite andb_true_r.
Qed.

Lemma split_length_contains (s : string) :
  (1 < length (Py.split "." s))%nat ↔ str_contains s "." = true.
Proof.
  induction s as [|a s IH]; [cbn; split; [lia | done] |].
  rewrite str_contains_dot, (Ascii.eqb_sym "." a). cbn [Py.split].
  pose proof (split_not_nil "." s) as Hne.
  destruct (Ascii.eqb a ".").
  - destruct (Py.split "." s); [done |]. cbn; split; [done | lia].
  - destruct (Py.split "." s) as [|p ps]; [done |]. exact IH.
Qed.

(** A name with a dot is its base, a dot, and its last segment. *)
Lemma base_last_segment (s : string) :
  str_contains s "." = true →
  s = Py.join "." (removelast (Py.split "." s)) +:+ "."
      +:+ List.last (Py.split "." s) "".
Proof.
  intros H%split_length_contains. rewrite <- join_removelast by done.
  symmetry. apply join_split.
Qed.

(** [int] succeeds exactly on the non-empty strings of decimal digits,
    and those satisfy [isdigit]. *)
Lemma int_Some_digits (v : string) (n : N) :
  Py.int v = Some n → Py.nonempty v = true ∧ Py.all_chars Py.isdecimal_char v = true.
Proof.
  unfold Py.int. destruct (Py.nonempty v); [|done]. intros H. split; [done |].
  revert H. generalize 0%N. induction v as [|c v IH]; intros acc; simpl; [done |].
  destruct (Py.isdecimal_char c); [|done]. intros H. by apply IH in H.
Qed.

Lemma digits_int_Some (v : string) :
  Py.nonempty v = true → Py.all_chars Py.isdecimal_char v = true →
  ∃ n, Py.int v = Some n.
Proof.
  unfold Py.int. intros -> H. revert H. generalize 0%N.
  induction v as [|c v IH]; intros acc; simpl; [eauto |].
  intros [Hc Hv]%andb_true_iff. rewrite Hc. by apply IH.
Qed.

Lemma int_Some_isdigit (v : string) (n : N) : Py.int v = Some n → Py.isdigit v = true.
Proof.
  intros [Hne Hd]%int_Some_digits. unfold Py.isdigit. rewrite Hne. simpl.
  clear Hne. induction v as [|c v IH]; simpl in *; [done |].
  apply andb_true_iff in Hd as [Hc Hv]. rewrite IH by done.
  unfold Py.isdigit_char. unfold Py.isdecimal_char in Hc. by rewrite Hc.
Qed.

End strings.

(** ** The matcher *)

Section matcher.
Implicit Types (l : list (N * string)) (x y m : N * string).
Implicit Types (base dependency : string) (pool : list string).

Lemma tuple_ltb_true x y : tuple_ltb x y = true → (x.1 ≤ y.1)%N.
Proof. unfold tuple_ltb. intros H. destruct (N.ltb_spec x.1 y.1), (N.eqb_spec x.1 y.1); simpl in *; lia. Qed.

Lemma tuple_ltb_false x y : tuple_ltb x y = false → (y.1 ≤ x.1)%N.
Proof. unfold tuple_ltb. intros H. destruct (N.ltb_spec x.1 y.1); simpl in *; [done | lia]. Qed.

Lemma insert_desc_elem x l y : y ∈ insert_desc x l ↔ y = x ∨ y ∈ l.
Proof.
  induction l as [|z l IH]; simpl.
  - rewrite list_elem_of_singleton, elem_of_nil. tauto.
  - destruct (tuple_ltb x z); rewrite !elem_of_cons; [rewrite IH |]; tauto.
Qed.

Lemma sort_reverse_elem l y : y ∈ sort_reverse l ↔ y ∈ l.
Proof.
  induction l as [|z l IH]; simpl; [done |].
  rewrite insert_desc_elem, IH, elem_of_cons. tauto.
Qed.

Lemma insert_desc_head x l : head_greatest l → head_greatest (insert_desc x l).
Proof.
  destruct l as [|z l]; simpl.
  - intros _ y ->%list_elem_of_singleton. lia.
  - intros Hz. destruct (tuple_ltb x z) eqn:E.
    + intros y [->|[->|Hy]%insert_desc_elem]%elem_of_cons; [lia | | ].
      * by apply tuple_ltb_true.
      * apply Hz. by right.
    + intros y [->|Hy]%elem_of_cons; [lia |].
      apply tuple_ltb_false in E. specialize (Hz y Hy). lia.
Qed.

Lemma sort_reverse_head l : head_greatest (sort_reverse l).
Proof. induction l as [|z l IH]; simpl; [done | by apply insert_desc_head]. Qed.

Lemma sort_reverse_first l m t :
  sort_reverse l = m :: t → m ∈ l ∧ ∀ y, y ∈ l → (y.1 ≤ m.1)%N.
Proof.
  intros H. split.
  - apply sort_reverse_elem. rewrite H. by left.
  - intros y Hy. pose proof (sort_reverse_head l) as Hh. rewrite H in Hh.
    apply Hh. rewrite <- H. by apply sort_reverse_elem.
Qed.

Lemma sort_reverse_nil l : sort_reverse l = [] → l = [].
Proof.
  destruct l as [|z l]; [done |]. intros H.
  assert (Hz : z ∈ sort_reverse (z :: l)) by (apply sort_reverse_elem; by left).
  rewrite H in Hz. by apply elem_of_nil in Hz.
Qed.

Lemma version_entry_elem base source_file n g :
  (n, g) ∈ version_entry base source_file ↔ g = source_file ∧ candidate base g n.
Proof.
  unfold version_entry, candidate. split.
  - destruct (Py.startswith _ _) eqn:Hs; [|by intros ?%elem_of_nil].
    destruct (Py.isdigit _); [|by intros ?%elem_of_nil].
    destruct (Py.int _) as [k|] eqn:Hk; [|by intros ?%elem_of_nil].
    intros [= -> ->]%list_elem_of_singleton. split; [done |].
    apply startswith_inv in Hs. rewrite append_length, append_assoc in Hs.
    eexists. split; [exact Hs | exact Hk].
  - intros [-> (v & Hv & Hn)]. rewrite Hv, <- append_assoc, startswith_app.
    replace (String.length base + 1)%nat with (String.length (base +:+ "."))
      by apply append_length.
    rewrite drop_app, (int_Some_isdigit v n Hn), Hn. by left.
Qed.

Lemma matching_files_elem base pool n g :
  (n, g) ∈ matching_files base pool ↔ g ∈ pool ∧ candidate base g n.
Proof.
  unfold matching_files. rewrite list_elem_of_In, in_flat_map. split.
  - intros (f & Hf%list_elem_of_In & [-> Hc]%list_elem_of_In%version_entry_elem).
    done.
  - intros [Hg Hc]. exists g. split; [by apply list_elem_of_In |].
    apply list_elem_of_In, version_entry_elem. done.
Qed.

Lemma highest_version_spec base pool :
  highest_in base pool (highest_version base pool).
Proof.
  unfold highest_version, highest_in.
  destruct (sort_reverse _) as [|[n f] t] eqn:Hsort.
  - apply sort_reverse_nil in Hsort. intros g k Hg Hc.
    assert (H : (k, g) ∈ matching_files base pool) by by apply matching_files_elem.
    rewrite Hsort in H. by apply elem_of_nil in H.
  - apply sort_reverse_first in Hsort as [[Hf Hc]%matching_files_elem Hmax].
    simpl. split; [done |]. exists n. split; [done |].
    intros g k Hg Hgc. apply (Hmax (k, g)). by apply matching_files_elem.
Qed.

Lemma exact_match_None dependency pool :
  (∀ f, f ∈ pool → source_name f ≠ dependency) →
  exact_match dependency pool = None.
Proof.
  unfold exact_match. induction pool as [|f pool IH]; intros H; simpl; [done |].
  destruct (String.eqb_spec (source_name f) dependency) as [E|_].
  - exfalso. apply (H f); [by left | done].
  - apply IH. intros g Hg. apply H. by right.
Qed.

Lemma exact_match_Some dependency pool f :
  exact_match dependency pool = Some f → f ∈ pool ∧ source_name f = dependency.
Proof.
  unfold exact_match. intros H. apply find_some in H as [H1 H2].
  split; [by apply list_elem_of_In | by apply String.eqb_eq].
Qed.

(** For a [.latest] dependency rule 3 searches with the base of rule 2. *)
Lemma fallback_latest b pool :
  fallback_match (b +:+ ".latest") pool = highest_version b pool.
Proof.
  unfold fallback_match.
  assert (Hl : (1 < length (Py.split "." (b +:+ ".latest")))%nat).
  { apply split_length_contains. clear. induction b as [|c b IH]; [done |].
    change (String c b +:+ ".latest") with (String c (b +:+ ".latest")).
    rewrite str_contains_dot, IH. apply orb_true_r. }
  apply Nat.ltb_lt in Hl. rewrite Hl.
  change (b +:+ ".latest") with (b +:+ "." +:+ "latest").
  by rewrite (base_of_qualified b "latest").
Qed.

End matcher.

(** ** Rule 2 and rule 3 of the matcher *)

(** C1: when the dependency ends in [.latest] and no candidate carries
    exactly its name, [find_dependency_match] returns a file of the pool
    whose identifier is the base (the name without its last 7 characters),
    a dot and a decimal numeral whose value no other such candidate
    exceeds, and it returns nothing exactly when there is no such candidate;
    the comparison is numeric, so [Foo.Bar.10] wins over [Foo.Bar.2]. *)
Theorem latest_resolution (D : string) (pool : list string) :
  Py.endswith D ".latest" = true →
  (∀ f, f ∈ pool → source_name f ≠ D) →
  D = Py.drop_last 7 D +:+ ".latest"
  ∧ highest_in (Py.drop_last 7 D) pool (find_dependency_match D pool)
  ∧ find_dependency_match "Foo.Bar.latest"
      ["/s/Foo.Bar.1.var"; "/s/Foo.Bar.2.var"; "/s/Foo.Bar.10.var"]
    = Some "/s/Foo.Bar.10.var"
  ∧ source_name "/s/Foo.Bar.10.var" = "Foo.Bar.10".
Proof.
  intros Hend Hexact. pose proof (endswith_inv _ _ Hend) as HD.
  change (String.length ".latest") with 7%nat in HD.
  split; [exact HD |]. split; [| by split].
  unfold find_dependency_match, latest_match.
  rewrite (exact_match_None _ _ Hexact), Hend.
  pose proof (highest_version_spec (Py.drop_last 7 D) pool) as Hspec.
  destruct (highest_version (Py.drop_last 7 D) pool) eqn:Hh; [exact Hspec |].
  assert (Hfb : fallback_match D pool = highest_version (Py.drop_last 7 D) pool)
    by (rewrite HD at 1; apply fallback_latest).
  rewrite Hfb, Hh. exact Hspec.
Qed.

Lemma latest_resolution_witness :
  Py.endswith "Foo.Bar.latest" ".latest" = true
  ∧ highest_in "Foo.Bar" ["/s/Foo.Bar.1.var"; "/s/Foo.Bar.2.var"; "/s/Foo.Bar.10.var"]
      (find_dependency_match "Foo.Bar.latest"
         ["/s/Foo.Bar.1.var"; "/s/Foo.Bar.2.var"; "/s/Foo.Bar.10.var"]).
Proof.
  split; [reflexivity |].
  apply (latest_resolution "Foo.Bar.latest"
           ["/s/Foo.Bar.1.var"; "/s/Foo.Bar.2.var"; "/s/Foo.Bar.10.var"]).
  - reflexivity.
  - intros f Hf. repeat (apply elem_of_cons in Hf as [-> | Hf]); try discriminate.
    by apply elem_of_nil in Hf.
Defined.

(** C2: when the dependency contains a dot, no candidate carries exactly
    its name, and rule 2 did not apply or found nothing, the base is the
    name without its last dot-segment, whatever that segment is, and
    [find_dependency_match] returns a candidate of the highest version for
    that base, nothing only when the pool has no such candidate; for
    [Foo.Bar.3] among [Foo.Bar.2] and [Foo.Bar.5] it returns [Foo.Bar.5]. *)
Theorem fallback_resolution (D : string) (pool : list string) :
  str_contains D "." = true →
  (∀ f, f ∈ pool → source_name f ≠ D) →
  Py.endswith D ".latest" = false
  ∨ highest_version (Py.drop_last 7 D) pool = None →
  D = Py.join "." (removelast (Py.split "." D)) +:+ "."
      +:+ List.last (Py.split "." D) ""
  ∧ highest_in (Py.join "." (removelast (Py.split "." D))) pool
      (find_dependency_match D pool)
  ∧ find_dependency_match "Foo.Bar.3" ["/s/Foo.Bar.2.var"; "/s/Foo.Bar.5.var"]
    = Some "/s/Foo.Bar.5.var"
  ∧ source_name "/s/Foo.Bar.5.var" = "Foo.Bar.5".
Proof.
  intros Hdot Hexact Hlatest.
  split; [by apply base_last_segment |]. split; [| by split].
  unfold find_dependency_match.
  rewrite (exact_match_None _ _ Hexact).
  replace (latest_match D pool) with (@None string).
  - unfold fallback_match.
    apply split_length_contains, Nat.ltb_lt in Hdot. rewrite Hdot.
    apply highest_version_spec.
  - unfold latest_match. destruct Hlatest as [-> | ->]; [done |].
    by destruct (Py.endswith D ".latest").
Qed.

Lemma fallback_resolution_witness :
  str_contains "Foo.Bar.3" "." = true
  ∧ highest_in "Foo.Bar" ["/s/Foo.Bar.2.var"; "/s/Foo.Bar.5.var"]
      (find_dependency_match "Foo.Bar.3" ["/s/Foo.Bar.2.var"; "/s/Foo.Bar.5.var"]).
Proof.
  split; [reflexivity |].
  apply (fallback_resolution "Foo.Bar.3" ["/s/Foo.Bar.2.var"; "/s/Foo.Bar.5.var"]).
  - reflexivity.
  - intros f Hf. repeat (apply elem_of_cons in Hf as [-> | Hf]); try discriminate.
    by apply elem_of_nil in Hf.
  - left. reflexivity.
Defined.

(** ** The preset pattern *)

Section preset.
Local Arguments String.append !_ _ /.
Local Arguments is_quote : simpl never.
Local Arguments not_quote : simpl never.
Local Arguments is_char : simpl never.
Local Arguments Ascii.eqb : simpl never.

Local Abbreviation closing :=
  [Re.Atom not_quote Re.Star false; Re.Atom is_quote Re.One false].
Local Abbreviation path_tail :=
  (Re.Atom (is_char ":") Re.One false :: Re.Atom (is_char "/") Re.One false :: closing).
Local Abbreviation name_atom := (Re.Atom not_quote Re.Plus true).

Lemma is_quote_not c : not_quote c = true → is_quote c = false.
Proof. unfold not_quote. by destruct (is_quote c). Qed.

(** [[^"]*"] consumes a quote-free run and the quote behind it. *)
Lemma closing_found (r post : string) :
  Py.all_chars not_quote r = true →
  Re.match_here closing (r +:+ String quote post) = Some ("", post).
Proof.
  induction r as [|c r IH]; simpl; [done |].
  intros [Hc Hr]%andb_true_iff. rewrite Hc.
  simpl in IH. by rewrite IH.
Qed.

Lemma closing_unclosed (r : string) :
  Py.all_chars not_quote r = true → Re.match_here closing r = None.
Proof.
  induction r as [|c r IH]; simpl; [done |].
  intros [Hc Hr]%andb_true_iff. rewrite Hc.
  simpl in IH. rewrite IH by done. by rewrite (is_quote_not c).
Qed.

Lemma all_chars_app (p : ascii → bool) (a b : string) :
  Py.all_chars p (a +:+ b) = Py.all_chars p a && Py.all_chars p b.
Proof. induction a as [|c a IH]; simpl; [done | by rewrite IH, andb_assoc]. Qed.

Lemma path_tail_found (r post : string) :
  Py.all_chars not_quote r = true →
  Re.match_here path_tail (":/" +:+ r +:+ String quote post) = Some ("", post).
Proof. intros Hr. pose proof (closing_found r post Hr) as H. simpl in *. by rewrite H. Qed.

Lemma path_tail_other (s : string) :
  Py.startswith s ":/" = false → Re.match_here path_tail s = None.
Proof.
  destruct s as [|a [|b s]]; simpl; [done | | ].
  - unfold is_char. rewrite (Ascii.eqb_sym a). destruct (Ascii.eqb ":" a); done.
  - unfold is_char. rewrite (Ascii.eqb_sym a), (Ascii.eqb_sym b).
    destruct (Ascii.eqb ":" a); [|done]. destruct (Ascii.eqb "/" b); [|done].
    simpl. by destruct s.
Qed.

Lemma path_tail_unclosed (s : string) :
  Py.all_chars not_quote s = true → Re.match_here path_tail s = None.
Proof.
  destruct s as [|a [|b s]]; simpl; [done | | ].
  - by destruct (is_char ":" a).
  - intros [Ha [Hb Hs]%andb_true_iff]%andb_true_iff.
    destruct (is_char ":" a); [|done]. destruct (is_char "/" b); [|done].
    pose proof (closing_unclosed s Hs) as H. simpl in *. by rewrite H.
Qed.

Local Abbreviation name_star := (Re.star name_atom (Re.match_here path_tail)).

Lemma str_contains_cons (c : ascii) (x needle : string) :
  str_contains (String c x) needle = false →
  Py.startswith (String c x) needle = false ∧ str_contains x needle = false.
Proof.
  change (str_contains (String c x) needle)
    with (Py.startswith (String c x) needle || str_contains x needle).
  apply orb_false_iff.
Qed.

Lemma name_star_none (x post : string) :
  Py.all_chars not_quote x = true → str_contains x ":/" = false →
  name_star (x +:+ String quote post) = None.
Proof.
  induction x as [|c x IH]; intros Hq Hc.
  - reflexivity.
  - apply str_contains_cons in Hc as [Hs Hc].
    simpl in Hq. apply andb_true_iff in Hq as [Hq Hx].
    cbn [String.append Re.star Re.accepts]. rewrite Hq, IH by done.
    apply path_tail_other. revert Hs. clear. simpl.
    destruct (Ascii.eqb ":" c); [|done]. simpl.
    destruct x as [|d x]; [reflexivity |]. simpl. by destruct x.
Qed.

Lemma name_star_unclosed (x : string) :
  Py.all_chars not_quote x = true → name_star x = None.
Proof.
  induction x as [|c x IH]; intros Hq; [done |].
  pose proof (path_tail_unclosed _ Hq) as Ht.
  simpl in Hq. apply andb_true_iff in Hq as [Hq Hx].
  cbn [Re.star Re.accepts]. by rewrite Hq, IH.
Qed.

(** The group stops in front of the last [:/] of a quoted run. *)
Lemma name_star_found (n r post : string) :
  Py.all_chars not_quote n = true → Py.all_chars not_quote r = true →
  str_contains r ":/" = false →
  name_star (n +:+ ":/" +:+ r +:+ String quote post) = Some (n, post).
Proof.
  intros Hn Hr Hc.
  change (":/" +:+ r +:+ String quote post)
    with (String ":" (String "/" (r +:+ String quote post))).
  induction n as [|c n IH].
  - pose proof (name_star_none (String "/" r) post) as Hnone.
    pose proof (path_tail_found r post Hr) as Hfound.
    cbn [String.append Re.star Re.accepts] in *.
    change (not_quote ":") with true. cbn iota.
    rewrite Hnone, Hfound; [done | by simpl | ].
    change (str_contains (String "/" r) ":/")
      with (Py.startswith (String "/" r) ":/" || str_contains r ":/").
    by rewrite Hc.
  - simpl in Hn. apply andb_true_iff in Hn as [Hq Hn].
    cbn [String.append Re.star Re.accepts]. by rewrite Hq, IH.
Qed.

Lemma match_not_quote (s : string) :
  Py.startswith s (String quote "") = false → Re.match_here pattern s = None.
Proof.
  destruct s as [|c s]; [done |]. simpl. unfold is_quote.
  rewrite (Ascii.eqb_sym c). destruct (Ascii.eqb quote c); [by destruct s | done].
Qed.

Lemma match_unclosed (seg : string) :
  Py.all_chars not_quote seg = true →
  Re.match_here pattern (String quote seg) = None.
Proof.
  intros Hq. destruct seg as [|c seg]; [done |].
  simpl in Hq. apply andb_true_iff in Hq as [Hc Hq].
  pose proof (name_star_unclosed seg Hq) as H.
  cbn in *. rewrite Hc. cbn. by rewrite H.
Qed.

Lemma match_no_name (seg post : string) :
  Py.all_chars not_quote seg = true →
  str_contains (Py.drop 1 seg) ":/" = false →
  Re.match_here pattern (String quote (seg +:+ String quote post)) = None.
Proof.
  intros Hq Hc. destruct seg as [|c seg]; [done |].
  simpl in Hq. apply andb_true_iff in Hq as [Hc' Hq].
  pose proof (name_star_none seg post Hq Hc) as H.
  cbn in *. rewrite Hc'. cbn. by rewrite H.
Qed.

Lemma match_found (n r post : string) :
  n ≠ "" →
  Py.all_chars not_quote n = true → Py.all_chars not_quote r = true →
  str_contains r ":/" = false →
  Re.match_here pattern (String quote (n +:+ ":/" +:+ r +:+ String quote post))
  = Some (n, post).
Proof.
  intros Hne Hn Hr Hc. destruct n as [|c n]; [done |].
  simpl in Hn. apply andb_true_iff in Hn as [Hq Hn].
  pose proof (name_star_found n r post Hn Hr Hc) as H.
  cbn in *. rewrite Hq. cbn. by rewrite H.
Qed.

Lemma findall_skip (pat : list Re.atom) (x t : string) :
  Re.findall_from pat (String.length x) (x +:+ t) = Re.findall_from pat 0 t.
Proof. induction x as [|c x IH]; [done | exact IH]. Qed.

Lemma findall_quote_free (pre t : string) :
  Py.all_chars not_quote pre = true →
  Re.findall_from pattern 0 (pre +:+ t) = Re.findall_from pattern 0 t.
Proof.
  induction pre as [|c pre IH]; [done |]. intros [Hc Hq]%andb_true_iff.
  cbn [String.append Re.findall_from]. rewrite match_not_quote; [by apply IH |].
  apply is_quote_not in Hc. unfold is_quote in Hc. simpl.
  by rewrite (Ascii.eqb_sym quote), Hc.
Qed.

Lemma findall_no_quote (pre : string) :
  Py.all_chars not_quote pre = true → Re.findall pattern pre = [].
Proof.
  intros Hq. unfold Re.findall. rewrite <- (append_nil_r pre).
  by rewrite findall_quote_free.
Qed.

Lemma findall_unclosed (pre seg : string) :
  Py.all_chars not_quote pre = true → Py.all_chars not_quote seg = true →
  Re.findall pattern (pre +:+ String quote seg) = [].
Proof.
  intros Hp Hs. unfold Re.findall. rewrite findall_quote_free by done.
  cbn [Re.findall_from]. rewrite match_unclosed by done.
  by apply findall_no_quote.
Qed.

Lemma findall_no_name (pre seg post : string) :
  Py.all_chars not_quote pre = true → Py.all_chars not_quote seg = true →
  str_contains (Py.drop 1 seg) ":/" = false →
  Re.findall pattern (pre +:+ String quote (seg +:+ String quote post))
  = Re.findall pattern (String quote post).
Proof.
  intros Hp Hs Hc. unfold Re.findall. rewrite findall_quote_free by done.
  cbn [Re.findall_from]. rewrite match_no_name by done.
  by rewrite findall_quote_free.
Qed.

Lemma findall_found (pre n r post : string) :
  Py.all_chars not_quote pre = true →
  Py.all_chars not_quote (n +:+ ":/" +:+ r) = true →
  n ≠ "" → str_contains r ":/" = false →
  Re.findall pattern
    (pre +:+ String quote ((n +:+ ":/" +:+ r) +:+ String quote post))
  = n :: Re.findall pattern post.
Proof.
  intros Hp Hs Hne Hc. unfold Re.findall. rewrite findall_quote_free by done.
  rewrite !all_chars_app in Hs. apply andb_true_iff in Hs as [Hn [_ Hr]%andb_true_iff].
  cbn [Re.findall_from]. rewrite !append_assoc, match_found by done. f_equal.
  rewrite <- !append_assoc.
  change (String quote post) with (String quote "" +:+ post).
  rewrite <- (append_assoc _ (String quote "") post).
  set (x := ((n +:+ ":/") +:+ r) +:+ String quote "").
  replace (String.length (String quote (x +:+ post)) - String.length post - 1)%nat
    with (String.length x); [apply findall_skip |].
  cbn [String.length]. rewrite append_length. lia.
Qed.
End preset.

(** The pattern as [re.findall] runs it: in a text cut at its quotes, a
    run between two quotes gives the part in front of its last [:/] when
    that part is not empty, and the scan goes on behind the closing quote; a
    run without such a [:/] gives nothing and its closing quote may open the
    next run; text without a quote, or behind an unclosed quote, gives
    nothing. *)
Lemma preset_names (pre seg post : string) :
  Py.all_chars not_quote pre = true →
  Py.all_chars not_quote seg = true →
  Re.findall pattern pre = []
  ∧ Re.findall pattern (pre +:+ String quote seg) = []
  ∧ (∀ n r, seg = n +:+ ":/" +:+ r → n ≠ "" → str_contains r ":/" = false →
       Re.findall pattern (pre +:+ String quote (seg +:+ String quote post))
       = n :: Re.findall pattern post)
  ∧ (str_contains (Py.drop 1 seg) ":/" = false →
       Re.findall pattern (pre +:+ String quote (seg +:+ String quote post))
       = Re.findall pattern (String quote post))
  ∧ (∀ text name, name ∈ occurences text ↔ name ∈ Re.findall pattern text)
  ∧ Re.findall pattern (String quote ("a:/b:/c" +:+ String quote "")) = ["a:/b"].
Proof.
  intros Hpre Hseg. split; [by apply findall_no_quote |].
  split; [by apply findall_unclosed |].
  split; [| split; [by apply findall_no_name |]].
  - intros n r -> Hne Hc. by apply findall_found.
  - split; [| reflexivity]. intros text name. unfold occurences.
    apply elem_of_list_to_set.
Qed.

Example preset_names_sample :
  Re.findall pattern ("see " +:+ String quote ("A.B.1:/Custom/x:/y" +:+ String quote " end"))
  = ["A.B.1:/Custom/x"].
Proof.
  pose proof (preset_names "see " "A.B.1:/Custom/x:/y" " end" eq_refl eq_refl)
    as (Hpre & _ & Hfound & _).
  rewrite (Hfound "A.B.1:/Custom/x" "y" eq_refl); [| discriminate | reflexivity].
  f_equal.
Qed.

(** ** The unreferenced-package query *)

Lemma unreferenced_by (allVarList : gset string) (deps : list string) (var : string) :
  var ∈ List.filter (fun var => negb (check_name_variation var deps)) (elements allVarList)
  ↔ var ∈ allVarList ∧ check_name_variation var deps = false.
Proof.
  rewrite list_elem_of_In, filter_In, <- list_elem_of_In, elem_of_elements.
  by rewrite negb_true_iff.
Qed.

Lemma check_name_variation_self (var : string) (deps : list string) :
  var ∈ deps → check_name_variation var deps = true.
Proof.
  intros H. unfold check_name_variation.
  by rewrite (bool_decide_eq_true_2 _ H).
Qed.

(** A versioned name [b.t] is referenced by the key [b.latest]. *)
Lemma check_name_variation_latest (b t : string) (deps : list string) :
  Py.rfind "." t = -1 → Py.isdigit t = true ∨ t = "latest" →
  b +:+ ".latest" ∈ deps → check_name_variation (b +:+ "." +:+ t) deps = true.
Proof.
  intros Ht Hq Hin. unfold check_name_variation.
  rewrite (base_of_qualified b t Ht).
  change ("." +:+ t) with (String "."%char t).
  rewrite split_app, (split_no_sep _ t Ht), last_last.
  replace (Py.isdigit t || String.eqb t "latest") with true.
  - rewrite (bool_decide_eq_true_2 _ Hin). apply orb_true_r.
  - symmetry. destruct Hq as [-> | ->]; [done | apply orb_true_r].
Qed.

(** C5: an identifier is listed as unreferenced exactly when it is
    installed and fails [check_name_variation] against the keys of the
    manifest mapping and against the keys of the preset mapping; so a
    package named by a preset alone, or by a manifest alone, is not
    listed. *)
Theorem unreferenced_query (allVarList : gset string)
    (allDepVars allDepVarsPresets : list string) (var : string) :
  (var ∈ noDependency allVarList allDepVars allDepVarsPresets
   ↔ var ∈ allVarList
     ∧ check_name_variation var allDepVars = false
     ∧ check_name_variation var allDepVarsPresets = false)
  ∧ (var ∈ allDepVarsPresets ∨ var ∈ allDepVars →
     var ∉ noDependency allVarList allDepVars allDepVarsPresets)
  ∧ (∀ b t, var = b +:+ "." +:+ t → Py.rfind "." t = -1 →
       Py.isdigit t = true ∨ t = "latest" →
       b +:+ ".latest" ∈ allDepVarsPresets ∨ b +:+ ".latest" ∈ allDepVars →
       var ∉ noDependency allVarList allDepVars allDepVarsPresets).
Proof.
  assert (Hiff : var ∈ noDependency allVarList allDepVars allDepVarsPresets
                 ↔ var ∈ allVarList
                   ∧ check_name_variation var allDepVars = false
                   ∧ check_name_variation var allDepVarsPresets = false).
  { unfold noDependency, noDependencyVar, noDependencyPreset.
    rewrite merge_sort_Permutation, elem_of_elements, elem_of_intersection.
    rewrite !elem_of_list_to_set, !unreferenced_by. tauto. }
  split; [exact Hiff |]. split.
  - intros Href Hin. apply Hiff in Hin as (_ & Hm & Hp).
    destruct Href as [H | H]; apply check_name_variation_self in H; congruence.
  - intros b t -> Ht Hq Href Hin. apply Hiff in Hin as (_ & Hm & Hp).
    destruct Href as [H | H];
      apply (check_name_variation_latest b t _ Ht Hq) in H; congruence.
Qed.

Lemma unreferenced_query_witness :
  ("Bob.Skin.4" ∉ noDependency {["Bob.Skin.4"; "Alice.Hair.3"]} [] ["Bob.Skin.4"])
  ∧ ("Alice.Hair.3" ∈ noDependency {["Bob.Skin.4"; "Alice.Hair.3"]} [] ["Bob.Skin.4"]).
Proof.
  split.
  - apply (unreferenced_query {["Bob.Skin.4"; "Alice.Hair.3"]} [] ["Bob.Skin.4"]).
    left. by apply list_elem_of_singleton.
  - apply (unreferenced_query {["Bob.Skin.4"; "Alice.Hair.3"]} [] ["Bob.Skin.4"]).
    split; [set_solver | split; reflexivity].
Defined.

(** ** The library scan *)

Section scan.
Context (w : world).
Implicit Types (acc : list (string * gset string) * list report).
Implicit Types (vars : list string).

Lemma scan_var_failed acc varFilename error :
  (read_manifest w varFilename).1 = Some error →
  scan_var w acc varFilename = (acc.1, acc.2 ++ [ManifestError varFilename error]).
Proof.
  unfold scan_var. destruct (read_manifest w varFilename) as [[e|] deps]; simpl;
    [by intros [= ->] | done].
Qed.

(** The edges a round adds depend on the edges so far, not on the lines
    printed so far. *)
Lemma scan_var_edges acc acc' varFilename :
  acc.1 = acc'.1 → (scan_var w acc varFilename).1 = (scan_var w acc' varFilename).1.
Proof.
  unfold scan_var. intros H.
  destruct (read_manifest w varFilename) as [[e|] deps]; simpl; by rewrite H.
Qed.

Lemma scan_var_printed acc varFilename line :
  line ∈ acc.2 → line ∈ (scan_var w acc varFilename).2.
Proof.
  unfold scan_var. intros H.
  destruct (read_manifest w varFilename) as [[e|] deps]; simpl; [|done].
  apply elem_of_app. by left.
Qed.

Lemma scan_printed acc vars line :
  line ∈ acc.2 → line ∈ (foldl (scan_var w) acc vars).2.
Proof.
  revert acc. induction vars as [|v vars IH]; intros acc H; simpl; [done |].
  by apply IH, scan_var_printed.
Qed.

Lemma scan_reports acc vars varFilename error :
  varFilename ∈ vars →
  (read_manifest w varFilename).1 = Some error →
  ManifestError varFilename error ∈ (foldl (scan_var w) acc vars).2.
Proof.
  revert acc. induction vars as [|v vars IH]; intros acc Hin Herr;
    [by apply elem_of_nil in Hin |].
  simpl. apply elem_of_cons in Hin as [<- | Hin]; [| by apply IH].
  apply scan_printed. rewrite (scan_var_failed _ _ _ Herr). simpl.
  apply elem_of_app. right. by left.
Qed.

Lemma scan_skips_failed acc acc' vars varFilename error :
  (read_manifest w varFilename).1 = Some error →
  acc.1 = acc'.1 →
  (foldl (scan_var w) acc vars).1
  = (foldl (scan_var w) acc' (filter (λ v, v ≠ varFilename) vars)).1.
Proof.
  intros Herr. revert acc acc'.
  induction vars as [|v vars IH]; intros acc acc' Hacc; simpl; [done |].
  destruct (decide (v = varFilename)) as [-> | Hne].
  - rewrite filter_cons_False by (intros H; by apply H).
    apply IH. by rewrite (scan_var_failed _ _ _ Herr).
  - rewrite filter_cons_True by done. simpl.
    apply IH. by apply scan_var_edges.
Qed.

End scan.

(** C9: every package file found by the scan has its identifier in the
    returned set, also a file whose manifest cannot be read; such a file
    adds nothing to the returned edges, which are those of a scan without
    it, and its error is among the lines printed. *)
Theorem manifest_failure_isolated (w : world) (directoryPath varFilename : string)
    (error : exn) :
  varFilename ∈ discover w directoryPath →
  (read_manifest w varFilename).1 = Some error →
  source_name varFilename ∈ (getAllVars w directoryPath).1.1
  ∧ ManifestError varFilename error ∈ (getAllVars w directoryPath).2
  ∧ (getAllVars w directoryPath).1.2
    = (scan_vars w (filter (λ v, v ≠ varFilename) (discover w directoryPath))).1.2
  ∧ (∀ var, var ∈ discover w directoryPath →
       source_name var ∈ (getAllVars w directoryPath).1.1).
Proof.
  intros Hin Herr.
  assert (Hall : ∀ var, var ∈ discover w directoryPath →
                   source_name var ∈ (getAllVars w directoryPath).1.1).
  { intros var Hvar. unfold getAllVars, scan_vars. simpl.
    apply elem_of_list_to_set, list_elem_of_fmap. by exists var. }
  split; [by apply Hall |]. split; [| split; [| exact Hall]].
  - unfold getAllVars, scan_vars. simpl. by apply scan_reports.
  - unfold getAllVars, scan_vars. simpl. by apply (scan_skips_failed w _ _ _ _ error).
Qed.

Lemma manifest_failure_isolated_witness :
  "Broken.Pack.1" ∈ (getAllVars sample_world "/vam").1.1
  ∧ ManifestError "/vam/AddonPackages/Broken.Pack.1.var"
      (Exception "meta.json not found in /vam/AddonPackages/Broken.Pack.1.var")
    ∈ (getAllVars sample_world "/vam").2.
Proof.
  pose proof (manifest_failure_isolated sample_world "/vam"
                "/vam/AddonPackages/Broken.Pack.1.var"
                (Exception "meta.json not found in /vam/AddonPackages/Broken.Pack.1.var"))
    as H.
  destruct H as (Hid & Hline & _).
  - change (discover sample_world "/vam")
      with ["/vam/AddonPackages/Alice.Hair.3.var"; "/vam/AddonPackages/Foo.Barber.2.var";
            "/vam/AddonPackages/Broken.Pack.1.var"; "/vam/AddonPackages/ .var"].
    repeat constructor.
  - reflexivity.
  - split; [exact Hid | exact Hline].
Defined.

(** ** Classification *)

Section dict_facts.
Context {V : Type}.
Implicit Types (d : list (string * V)) (k : string) (v : V).

Lemma dict_get_elem k v d : dict_get k d = Some v → (k, v) ∈ d.
Proof.
  induction d as [|[k' v'] d IH]; simpl; [done |].
  destruct (String.eqb_spec k' k) as [-> | Hne].
  - intros [= ->]. by left.
  - intros H. right. by apply IH.
Qed.

Lemma dict_get_set_eq k v d : dict_get k (dict_set k v d) = Some v.
Proof.
  induction d as [|[k' v'] d IH]; simpl.
  - by rewrite String.eqb_refl.
  - destruct (String.eqb_spec k' k) as [-> | Hne]; simpl.
    + by rewrite String.eqb_refl.
    + by destruct (String.eqb_spec k' k).
Qed.

Lemma dict_get_set_ne k k' v d : k ≠ k' → dict_get k' (dict_set k v d) = dict_get k' d.
Proof.
  intros Hne. induction d as [|[k0 v0] d IH]; simpl.
  - by destruct (String.eqb_spec k k').
  - destruct (String.eqb_spec k0 k) as [-> | Hk]; simpl.
    + by destruct (String.eqb_spec k k').
    + by rewrite IH.
Qed.

Lemma keys_dict_set k v d :
  keys (dict_set k v d) = if bool_decide (k ∈ keys d) then keys d else keys d ++ [k].
Proof.
  unfold keys. induction d as [|[k0 v0] d IH]; [done |]. cbn [dict_set].
  destruct (String.eqb_spec k0 k) as [-> | Hk]; rewrite !fmap_cons; cbn [fst].
  - rewrite bool_decide_eq_true_2; [done | by left].
  - rewrite IH. case_bool_decide as H1; case_bool_decide as H2; try done.
    + exfalso. apply H2. by right.
    + apply elem_of_cons in H2 as [-> | H2]; done.
Qed.

Lemma dict_set_NoDup k v d : NoDup (keys d) → NoDup (keys (dict_set k v d)).
Proof.
  intros H. rewrite keys_dict_set. case_bool_decide as Hk; [done |].
  apply NoDup_app. split; [done |]. split; [| apply NoDup_singleton].
  intros x Hx ->%list_elem_of_singleton. done.
Qed.
End dict_facts.

Section classify_facts.
Context (w : world) (verbose : bool) (mainVarList : gset string) (pool : list string)
        (destPath : option string).
Implicit Types (st : refs) (item : string * gset string).

Local Abbreviation step := (classify w verbose mainVarList pool destPath).

Lemma copy_found_recorded k match_file st :
  recorded k (copy_found w destPath match_file st) = recorded k st.
Proof.
  unfold copy_found. destruct destPath as [dest|]; [|done].
  destruct (Py.nonempty dest); [|done]. case_bool_decide; [done |].
  by destruct (copy2 _ _ _ _).
Qed.

Lemma classify_other k st item :
  item.1 ≠ k → recorded k (step st item) = recorded k st.
Proof.
  intros Hne. unfold classify. destruct (blank item.1); [done |].
  destruct (List.find _ _).
  { unfold recorded. simpl. by rewrite dict_get_set_ne. }
  destruct (find_dependency_match _ _) as [f|].
  - destruct (Py.nonempty f).
    + rewrite copy_found_recorded. unfold recorded. simpl.
      by rewrite dict_get_set_ne.
    + unfold recorded. simpl. by rewrite dict_get_set_ne.
  - unfold recorded. simpl. by rewrite dict_get_set_ne.
Qed.

Lemma classify_self D dependents st :
  recorded D st = (None, None, None) →
  recorded D (step st (D, dependents))
  = expected (verdict_of mainVarList pool D) dependents.
Proof.
  intros [= Ha Hf Hm]. unfold classify, verdict_of. simpl.
  destruct (blank D); [by unfold recorded; rewrite Ha, Hf, Hm |].
  destruct (List.find _ _).
  { unfold recorded. simpl. by rewrite dict_get_set_eq, Hf, Hm. }
  destruct (find_dependency_match _ _) as [f|].
  - destruct (Py.nonempty f).
    + rewrite copy_found_recorded. unfold recorded. simpl.
      by rewrite dict_get_set_eq, Ha, Hm.
    + unfold recorded. simpl. by rewrite dict_get_set_eq, Ha, Hf.
  - unfold recorded. simpl. by rewrite dict_get_set_eq, Ha, Hf.
Qed.

Lemma classify_rest k st deps :
  k ∉ keys deps → recorded k (foldl step st deps) = recorded k st.
Proof.
  revert st. induction deps as [|item deps IH]; intros st Hk; [done |].
  simpl. unfold keys in *. rewrite fmap_cons in Hk.
  apply not_elem_of_cons in Hk as [Hne Hk].
  rewrite IH by done. by apply classify_other.
Qed.

(** With unique keys, what is recorded under a key is decided by the
    round of that key alone. *)
Lemma classify_fold D dependents st deps :
  NoDup (keys deps) → (D, dependents) ∈ deps →
  recorded D st = (None, None, None) →
  recorded D (foldl step st deps)
  = expected (verdict_of mainVarList pool D) dependents.
Proof.
  revert st. induction deps as [|item deps IH]; intros st Hnd Hin Hst;
    [by apply elem_of_nil in Hin |].
  unfold keys in *. rewrite fmap_cons in Hnd. apply NoDup_cons in Hnd as [Hhd Hnd].
  simpl. apply elem_of_cons in Hin as [<- | Hin].
  - rewrite classify_rest by done. by apply classify_self.
  - apply IH; [done | done |]. rewrite classify_other; [done |].
    intros Heq. apply Hhd. rewrite Heq.
    apply list_elem_of_fmap. by exists (D, dependents).
Qed.

Lemma classify_all_recorded D dependents deps fs :
  NoDup (keys deps) → (D, dependents) ∈ deps →
  recorded D (classify_all w verbose mainVarList deps pool destPath fs)
  = expected (verdict_of mainVarList pool D) dependents.
Proof. intros Hnd Hin. by apply classify_fold. Qed.

(** A blank name is recorded nowhere, whatever the mapping holds. *)
Lemma classify_blank k st deps :
  blank k = true → recorded k (foldl step st deps) = recorded k st.
Proof.
  intros Hk. revert st. induction deps as [|item deps IH]; intros st; [done |].
  simpl. rewrite IH. destruct (decide (item.1 = k)) as [Heq | Hne].
  - unfold classify. by rewrite Heq, Hk.
  - by apply classify_other.
Qed.
End classify_facts.

(** The mapping [getAllVars] returns has unique keys. *)
Lemma add_dependent_NoDup (dependent : string) (d : list (string * gset string)) (key : string) :
  NoDup (keys d) → NoDup (keys (add_dependent dependent d key)).
Proof. intros H. unfold add_dependent. destruct (dict_get key d); by apply dict_set_NoDup. Qed.

Lemma scan_var_NoDup (w : world) acc (varFilename : string) :
  NoDup (keys acc.1) → NoDup (keys (scan_var w acc varFilename).1).
Proof.
  intros H. unfold scan_var.
  destruct (read_manifest w varFilename) as [[e|] deps]; simpl; [done |].
  revert H. generalize acc.1. induction (elements deps) as [|k l IH]; intros d Hd; [done |].
  simpl. by apply IH, add_dependent_NoDup.
Qed.

Lemma getAllVars_NoDup (w : world) (directoryPath : string) :
  NoDup (keys (getAllVars w directoryPath).1.2).
Proof.
  unfold getAllVars, scan_vars. simpl.
  assert (H : ∀ vars acc, NoDup (keys acc.1) → NoDup (keys (foldl (scan_var w) acc vars).1)).
  { induction vars as [|v vars IH]; intros acc Hacc; [done |].
    simpl. by apply IH, scan_var_NoDup. }
  apply H. simpl. apply NoDup_nil_2.
Qed.

Section satisfied.
Implicit Types (D I : string) (S : gset string).

Lemma satisfies_iff D I :
  satisfies D I = true
  ↔ I = D ∨ (Py.endswith D ".latest" = true
             ∧ Py.startswith I (Py.drop_last 7 D) = true).
Proof.
  unfold satisfies. rewrite orb_true_iff, andb_true_iff, String.eqb_eq. tauto.
Qed.

Lemma find_satisfies D I S :
  I ∈ S → satisfies D I = true →
  ∃ I', List.find (satisfies D) (elements S) = Some I' ∧ I' ∈ S ∧ satisfies D I' = true.
Proof.
  intros HI Hs. destruct (List.find (satisfies D) (elements S)) as [I'|] eqn:Hf.
  - apply find_some in Hf as [Hin Hs']. exists I'.
    split; [done |]. split; [| done]. by apply elem_of_elements, list_elem_of_In.
  - apply find_none with (x := I) in Hf; [congruence |].
    by apply list_elem_of_In, elem_of_elements.
Qed.

Lemma find_satisfies_None D S :
  (∀ I, I ∈ S → satisfies D I = false) →
  List.find (satisfies D) (elements S) = None.
Proof.
  intros H. destruct (List.find (satisfies D) (elements S)) as [I'|] eqn:Hf; [|done].
  apply find_some in Hf as [Hin Hs'].
  rewrite H in Hs'; [done |]. by apply elem_of_elements, list_elem_of_In.
Qed.

Lemma blank_latest D : Py.endswith D ".latest" = true → blank D = false.
Proof.
  intros H%endswith_inv. rewrite H. generalize (Py.drop_last (String.length ".latest") D).
  intros b. unfold blank, Py.isspace. rewrite all_chars_app.
  replace (Py.all_chars Py.isspace_char ".latest") with false by reflexivity.
  rewrite andb_false_r, andb_false_r, orb_false_r. by destruct b.
Qed.

Lemma verdict_satisfied D I S pool :
  blank D = false → I ∈ S → satisfies D I = true →
  ∃ I', I' ∈ S ∧ satisfies D I' = true ∧ verdict_of S pool D = Satisfied I'.
Proof.
  intros Hb HI Hs. destruct (find_satisfies D I S HI Hs) as (I' & Hf & HI' & Hs').
  exists I'. split; [done |]. split; [done |].
  unfold verdict_of. by rewrite Hb, Hf.
Qed.

Lemma classify_satisfied_files w verbose S pool destPath st D dependents I :
  blank D = false → I ∈ S → satisfies D I = true →
  files (classify w verbose S pool destPath st (D, dependents)) = files st.
Proof.
  intros Hb HI Hs. destruct (find_satisfies D I S HI Hs) as (I' & Hf & _).
  unfold classify. simpl. by rewrite Hb, Hf.
Qed.

(** A file the matcher returns carries the name itself or a versioned
    name, so its path is not empty. *)
Lemma find_dependency_match_sound D pool f :
  find_dependency_match D pool = Some f →
  f ∈ pool ∧ (source_name f = D ∨ ∃ base n, candidate base f n).
Proof.
  unfold find_dependency_match, latest_match, fallback_match.
  destruct (exact_match D pool) as [g|] eqn:He.
  { intros [= <-]. apply exact_match_Some in He as [? ?]. auto. }
  assert (Hh : ∀ base, highest_version base pool = Some f →
                 f ∈ pool ∧ (source_name f = D ∨ ∃ base n, candidate base f n)).
  { intros base Hb. pose proof (highest_version_spec base pool) as Hs.
    rewrite Hb in Hs. destruct Hs as (Hin & n & Hc & _). eauto. }
  destruct (Py.endswith D ".latest").
  - destruct (highest_version (Py.drop_last 7 D) pool) as [g|] eqn:Hl.
    { intros [= <-]. eauto. }
    destruct (1 <? _)%nat; [eauto | done].
  - destruct (1 <? _)%nat; [eauto | done].
Qed.

Lemma find_dependency_match_nonempty D pool f :
  blank D = false → find_dependency_match D pool = Some f → Py.nonempty f = true.
Proof.
  intros Hb [_ Hf]%find_dependency_match_sound.
  destruct f as [|c f]; [|done]. exfalso.
  change (source_name "") with "" in Hf. destruct Hf as [<- | (base & n & v & Hv & _)].
  - done.
  - destruct base; discriminate.
Qed.

Lemma verdict_resolved D S pool f :
  blank D = false → (∀ I, I ∈ S → satisfies D I = false) →
  find_dependency_match D pool = Some f →
  verdict_of S pool D = Resolved f.
Proof.
  intros Hb Hs Hf. unfold verdict_of.
  by rewrite Hb, (find_satisfies_None _ _ Hs), Hf,
    (find_dependency_match_nonempty _ _ _ Hb Hf).
Qed.

Lemma find_latest_sound D pool f :
  Py.endswith D ".latest" = true → find_dependency_match D pool = Some f →
  source_name f = D
  ∨ Py.startswith (source_name f) (Py.drop_last 7 D +:+ ".") = true.
Proof.
  intros Hend. pose proof (endswith_inv _ _ Hend) as HD.
  change (String.length ".latest") with 7%nat in HD.
  unfold find_dependency_match, latest_match. rewrite Hend.
  destruct (exact_match D pool) as [g|] eqn:He.
  { intros [= <-]. apply exact_match_Some in He as [? ?]. auto. }
  assert (Hfb : fallback_match D pool = highest_version (Py.drop_last 7 D) pool)
    by (rewrite HD at 1; apply fallback_latest).
  rewrite Hfb. intros Hh. right.
  assert (Hb : highest_version (Py.drop_last 7 D) pool = Some f)
    by (by destruct (highest_version (Py.drop_last 7 D) pool)).
  pose proof (highest_version_spec (Py.drop_last 7 D) pool) as Hs.
  rewrite Hb in Hs. destruct Hs as (_ & n & (v & Hv & _) & _).
  rewrite Hv, <- append_assoc. apply startswith_app.
Qed.
End satisfied.

Lemma copy_found_tables w destPath match_file st :
  tables (copy_found w destPath match_file st) = tables st.
Proof.
  unfold copy_found. destruct destPath as [dest|]; [|done].
  destruct (Py.nonempty dest); [|done]. case_bool_decide; [done |].
  by destruct (copy2 _ _ _ _).
Qed.

Lemma classify_tables w w' verbose S pool destPath destPath' st st' item :
  tables st = tables st' →
  tables (classify w verbose S pool destPath st item)
  = tables (classify w' verbose S pool destPath' st' item).
Proof.
  intros [= Hm Hf Ha]. unfold classify. destruct (blank item.1).
  { unfold tables. by rewrite Hm, Hf, Ha. }
  destruct (List.find _ _).
  { unfold tables. simpl. by rewrite Hm, Hf, Ha. }
  destruct (find_dependency_match _ _) as [f|].
  - destruct (Py.nonempty f).
    + rewrite !copy_found_tables. unfold tables. simpl. by rewrite Hm, Hf, Ha.
    + unfold tables. simpl. by rewrite Hm, Hf, Ha.
  - unfold tables. simpl. by rewrite Hm, Hf, Ha.
Qed.

Lemma classify_all_tables w w' verbose S deps pool destPath destPath' fs fs' :
  tables (classify_all w verbose S deps pool destPath fs)
  = tables (classify_all w' verbose S deps pool destPath' fs').
Proof.
  unfold classify_all.
  assert (H : ∀ st st', tables st = tables st' →
    tables (foldl (classify w verbose S pool destPath) st deps)
    = tables (foldl (classify w' verbose S pool destPath') st' deps)).
  { induction deps as [|item deps IH]; intros st st' Hst; [done |].
    simpl. by apply IH, classify_tables. }
  by apply H.
Qed.

(** The run reaches the classification when the destination was created,
    and ends in the outer [except] when it was not. *)
Lemma run_reached w verbose mainPath sourcePath destPath fs :
  create_destination w destPath = None →
  checkMissingReferences w verbose mainPath sourcePath destPath fs
  = classify_all w verbose (getAllVars w mainPath).1.1 (getAllVars w mainPath).1.2
      (safe_glob w (OsPath.join sourcePath "**/*.var")) destPath fs.
Proof. intros H. unfold checkMissingReferences. by rewrite H. Qed.

Lemma run_refused w verbose mainPath sourcePath destPath fs error :
  create_destination w destPath = Some error →
  checkMissingReferences w verbose mainPath sourcePath destPath fs
  = Refs [] [] [] fs [RunError error].
Proof. intros H. unfold checkMissingReferences. by rewrite H. Qed.

Lemma run_recorded w verbose mainPath sourcePath destPath fs D dependents :
  create_destination w destPath = None →
  (D, dependents) ∈ (getAllVars w mainPath).1.2 →
  recorded D (checkMissingReferences w verbose mainPath sourcePath destPath fs)
  = expected (verdict_of (getAllVars w mainPath).1.1
                (safe_glob w (OsPath.join sourcePath "**/*.var")) D) dependents.
Proof.
  intros Hc Hin. rewrite run_reached by done.
  apply classify_all_recorded; [apply getAllVars_NoDup | done].
Qed.

(** [/locked] cannot be created: nothing is classified, nothing copied,
    and the error is printed. *)
Example run_locked :
  checkMissingReferences sample_refusing true "/vam" "/src" (Some "/locked") sample_files
  = Refs [] [] [] sample_files [RunError (LibraryError "File exists: /locked")].
Proof. reflexivity. Qed.

Lemma sample_installed :
  elements (getAllVars sample_world "/vam").1.1
  = ["Alice.Hair.3"; "Foo.Barber.2"; "Broken.Pack.1"; " "].
Proof. reflexivity. Qed.

Ltac in_dict := apply dict_get_elem; reflexivity.
Ltac in_set := apply elem_of_elements; rewrite sample_installed; repeat constructor.

(** C4 as the specification words it, for every name of the mapping,
    fails on a name that is blank: the installed file [" .var"] carries
    the identifier [" "], the manifest of [Alice.Hair.3] declares the
    dependency [" "], and the name is skipped, not recorded as satisfied. *)
Lemma satisfied_blank_refuted :
  ¬ (∀ (w : world) (verbose : bool) (mainPath sourcePath : string)
       (destPath : option string) (fs : gmap string string)
       (D I : string) (dependents : gset string),
       (D, dependents) ∈ (getAllVars w mainPath).1.2 →
       I ∈ (getAllVars w mainPath).1.1 →
       I = D ∨ (Py.endswith D ".latest" = true
                ∧ Py.startswith I (Py.drop_last 7 D) = true) →
       ∃ I', dict_get D (alreadySatisfiedRefs
                (checkMissingReferences w verbose mainPath sourcePath destPath fs))
             = Some (I', dependents)).
Proof.
  intros H.
  destruct (H sample_world false "/vam" "/src" None ∅ " " " " {["Alice.Hair.3.var"]})
    as [I' HI'].
  - in_dict.
  - in_set.
  - by left.
  - vm_compute in HI'. discriminate.
Qed.

(** C4, amended: in a run that reaches the check, the destination, if
    one is given, having been created, a name of the main mapping that is
    neither empty nor all whitespace, and that an installed identifier
    equals, or that ends in [.latest] with an installed identifier starting
    with its base, is recorded as already satisfied, with an installed
    identifier that passes this test and with its dependents; it is recorded
    neither as found nor as missing, and its round copies nothing. *)
Theorem already_satisfied (w : world) (verbose : bool) (mainPath sourcePath : string)
    (destPath : option string) (fs : gmap string string)
    (D I : string) (dependents : gset string) :
  create_destination w destPath = None →
  (D, dependents) ∈ (getAllVars w mainPath).1.2 →
  blank D = false →
  I ∈ (getAllVars w mainPath).1.1 →
  I = D ∨ (Py.endswith D ".latest" = true
           ∧ Py.startswith I (Py.drop_last 7 D) = true) →
  (∃ I', I' ∈ (getAllVars w mainPath).1.1
         ∧ (I' = D ∨ (Py.endswith D ".latest" = true
                      ∧ Py.startswith I' (Py.drop_last 7 D) = true))
         ∧ dict_get D (alreadySatisfiedRefs
              (checkMissingReferences w verbose mainPath sourcePath destPath fs))
           = Some (I', dependents))
  ∧ dict_get D (foundRefs
       (checkMissingReferences w verbose mainPath sourcePath destPath fs)) = None
  ∧ dict_get D (missingRefs
       (checkMissingReferences w verbose mainPath sourcePath destPath fs)) = None
  ∧ (∀ st, files (classify w verbose (getAllVars w mainPath).1.1
                    (safe_glob w (OsPath.join sourcePath "**/*.var")) destPath
                    st (D, dependents))
           = files st).
Proof.
  intros Hdest Hin Hb HI Hsat%satisfies_iff.
  set (pool := safe_glob w (OsPath.join sourcePath "**/*.var")).
  destruct (verdict_satisfied D I _ pool Hb HI Hsat) as (I' & HI' & Hs' & Hv).
  pose proof (run_recorded w verbose mainPath sourcePath destPath fs D dependents
                Hdest Hin) as Hrec.
  fold pool in Hrec. rewrite Hv in Hrec. injection Hrec as Ha Hf Hm.
  split; [| split; [exact Hf | split; [exact Hm |]]].
  - exists I'. split; [done |]. split; [by apply satisfies_iff | exact Ha].
  - intros st. by apply (classify_satisfied_files _ _ _ _ _ _ _ _ I).
Qed.

Lemma already_satisfied_witness :
  dict_get "Foo.Barber.2"
    (foundRefs (checkMissingReferences sample_world true "/vam" "/src"
                  (Some "/dest") sample_files)) = None.
Proof.
  apply (already_satisfied sample_world true "/vam" "/src" (Some "/dest") sample_files
           "Foo.Barber.2" "Foo.Barber.2" {["Alice.Hair.3.var"]}).
  - reflexivity.
  - in_dict.
  - reflexivity.
  - in_set.
  - by left.
Defined.

(** C10: in a run that reaches the check, the destination, if one is
    given, having been created, a name ending in [.latest] is recorded as
    already satisfied as soon as an installed identifier starts with its
    base, a dot behind the base not being asked for, whereas a file the
    matcher returns for such a name carries the name itself or starts with
    the base and a dot.  With [Foo.Barber.2] installed, [Foo.Bar.latest] is
    satisfied, and the matcher finds nothing for it in a pool that holds
    [Foo.Barber.2] alone. *)
Theorem latest_prefix_satisfies (w : world) (verbose : bool)
    (mainPath sourcePath : string) (destPath : option string)
    (fs : gmap string string) (D I : string) (dependents : gset string) :
  create_destination w destPath = None →
  (D, dependents) ∈ (getAllVars w mainPath).1.2 →
  Py.endswith D ".latest" = true →
  I ∈ (getAllVars w mainPath).1.1 →
  Py.startswith I (Py.drop_last 7 D) = true →
  (∃ I', I' ∈ (getAllVars w mainPath).1.1
         ∧ dict_get D (alreadySatisfiedRefs
              (checkMissingReferences w verbose mainPath sourcePath destPath fs))
           = Some (I', dependents))
  ∧ (∀ pool f, find_dependency_match D pool = Some f →
       source_name f = D
       ∨ Py.startswith (source_name f) (Py.drop_last 7 D +:+ ".") = true)
  ∧ satisfies "Foo.Bar.latest" "Foo.Barber.2" = true
  ∧ find_dependency_match "Foo.Bar.latest" ["/s/Foo.Barber.2.var"] = None
  ∧ recorded "Foo.Bar.latest"
      (checkMissingReferences sample_world false "/vam" "/src" None ∅)
    = (Some ("Foo.Barber.2", {["Alice.Hair.3.var"]}), None, None).
Proof.
  intros Hdest Hin Hend HI Hpre.
  split; [| split; [| split; [reflexivity | split; [reflexivity |]]]].
  - set (pool := safe_glob w (OsPath.join sourcePath "**/*.var")).
    assert (Hsat : satisfies D I = true) by (apply satisfies_iff; auto).
    destruct (verdict_satisfied D I _ pool (blank_latest D Hend) HI Hsat)
      as (I' & HI' & Hs' & Hv).
    pose proof (run_recorded w verbose mainPath sourcePath destPath fs D dependents
                  Hdest Hin) as Hrec.
    fold pool in Hrec. rewrite Hv in Hrec. injection Hrec as Ha Hf Hm. by exists I'.
  - intros pool f. by apply find_latest_sound.
  - vm_compute. reflexivity.
Qed.

Lemma latest_prefix_satisfies_witness :
  ∃ I', I' ∈ (getAllVars sample_world "/vam").1.1
        ∧ dict_get "Foo.Bar.latest"
            (alreadySatisfiedRefs
               (checkMissingReferences sample_world true "/vam" "/src"
                  (Some "/dest") sample_files))
          = Some (I', {["Alice.Hair.3.var"]}).
Proof.
  apply (latest_prefix_satisfies sample_world true "/vam" "/src" (Some "/dest")
           sample_files "Foo.Bar.latest" "Foo.Barber.2" {["Alice.Hair.3.var"]}).
  - reflexivity.
  - in_dict.
  - reflexivity.
  - in_set.
  - reflexivity.
Defined.

(** C6: a name that is empty or all whitespace is in none of the three
    dicts after the run, and its round leaves the whole state, files and
    printed lines included, as it was. *)
Theorem blank_never_classified (w : world) (verbose : bool)
    (mainPath sourcePath : string) (destPath : option string)
    (fs : gmap string string) (D : string) :
  Py.nonempty D = false ∨ Py.isspace D = true →
  dict_get D (alreadySatisfiedRefs
     (checkMissingReferences w verbose mainPath sourcePath destPath fs)) = None
  ∧ dict_get D (foundRefs
       (checkMissingReferences w verbose mainPath sourcePath destPath fs)) = None
  ∧ dict_get D (missingRefs
       (checkMissingReferences w verbose mainPath sourcePath destPath fs)) = None
  ∧ (∀ mainVarList sourceVarFiles st dependents,
       classify w verbose mainVarList sourceVarFiles destPath st (D, dependents) = st).
Proof.
  intros HD.
  assert (Hb : blank D = true).
  { unfold blank. destruct HD as [-> | ->]; [done | apply orb_true_r]. }
  assert (Hrec : recorded D (checkMissingReferences w verbose mainPath sourcePath
                               destPath fs) = (None, None, None)).
  { unfold checkMissingReferences. destruct (create_destination w destPath); [done |].
    apply (classify_blank w verbose (getAllVars w mainPath).1.1
             (safe_glob w (OsPath.join sourcePath "**/*.var")) destPath D
             (Refs [] [] [] fs []) (getAllVars w mainPath).1.2 Hb). }
  injection Hrec as Ha Hf Hm.
  split; [exact Ha | split; [exact Hf | split; [exact Hm |]]].
  intros S pool st ds. unfold classify. simpl. by rewrite Hb.
Qed.

Lemma blank_never_classified_witness :
  (" ", {["Alice.Hair.3.var"]}) ∈ (getAllVars sample_world "/vam").1.2
  ∧ dict_get " "
      (missingRefs (checkMissingReferences sample_world true "/vam" "/src"
                      (Some "/dest") sample_files)) = None.
Proof.
  split; [in_dict |].
  apply (blank_never_classified sample_world true "/vam" "/src" (Some "/dest")
           sample_files " ").
  right. reflexivity.
Defined.

(** C8: in a run that reaches the matcher, the destination, if one is
    given, having been created, a name that is not blank, that no installed
    identifier satisfies and for which the matcher returns a file is
    recorded as found with that file and its dependents, and not as missing,
    whatever the destination, the contents of the files and the copies the
    world refuses, hence whether its copy succeeds or raises; the three
    dicts are the same in every world that shows the same two libraries,
    for every destination that is created and every contents. *)
Theorem resolved_despite_copy (w : world) (verbose : bool)
    (mainPath sourcePath : string) (destPath : option string)
    (fs : gmap string string) (D match_file : string) (dependents : gset string) :
  create_destination w destPath = None →
  (D, dependents) ∈ (getAllVars w mainPath).1.2 →
  blank D = false →
  (∀ I, I ∈ (getAllVars w mainPath).1.1 → satisfies D I = false) →
  find_dependency_match D (safe_glob w (OsPath.join sourcePath "**/*.var"))
  = Some match_file →
  dict_get D (foundRefs
     (checkMissingReferences w verbose mainPath sourcePath destPath fs))
  = Some (match_file, dependents)
  ∧ dict_get D (missingRefs
       (checkMissingReferences w verbose mainPath sourcePath destPath fs)) = None
  ∧ (∀ w' destPath' fs',
       (getAllVars w' mainPath).1 = (getAllVars w mainPath).1 →
       safe_glob w' (OsPath.join sourcePath "**/*.var")
       = safe_glob w (OsPath.join sourcePath "**/*.var") →
       create_destination w' destPath' = None →
       tables (checkMissingReferences w' verbose mainPath sourcePath destPath' fs')
       = tables (checkMissingReferences w verbose mainPath sourcePath destPath fs)).
Proof.
  intros Hdest Hin Hb Hs Hf.
  pose proof (run_recorded w verbose mainPath sourcePath destPath fs D dependents
                Hdest Hin) as Hrec.
  rewrite (verdict_resolved D _ _ match_file Hb Hs Hf) in Hrec.
  injection Hrec as Ha Hfound Hm.
  split; [exact Hfound | split; [exact Hm |]].
  intros w' destPath' fs' Hscan Hpool Hdest'.
  rewrite !run_reached by done. rewrite Hscan, Hpool. apply classify_all_tables.
Qed.

Lemma refusing_installed :
  elements (getAllVars sample_refusing "/vam").1.1
  = ["Alice.Hair.3"; "Foo.Barber.2"; "Broken.Pack.1"; " "].
Proof. reflexivity. Qed.

(** Nothing can be written below [/readonly]: the copy of [Bob.Skin.4.var]
    raises, the error is printed, no file is added, and [Bob.Skin.latest] is
    recorded as found. *)
Lemma resolved_despite_copy_witness :
  dict_get "Bob.Skin.latest"
    (foundRefs (checkMissingReferences sample_refusing false "/vam" "/src"
                  (Some "/readonly") sample_files))
  = Some ("/src/Bob.Skin.4.var", {["Alice.Hair.3.var"]})
  ∧ printed (checkMissingReferences sample_refusing false "/vam" "/src"
               (Some "/readonly") sample_files)
    = [CopyError "/src/Bob.Skin.4.var" "/readonly/Bob.Skin.4.var"
         (LibraryError "Permission denied: /readonly/Bob.Skin.4.var")]
  ∧ files (checkMissingReferences sample_refusing false "/vam" "/src"
             (Some "/readonly") sample_files)
    = sample_files.
Proof.
  split; [| split; reflexivity].
  apply (resolved_despite_copy sample_refusing false "/vam" "/src" (Some "/readonly")
           sample_files "Bob.Skin.latest" "/src/Bob.Skin.4.var" {["Alice.Hair.3.var"]}).
  - reflexivity.
  - in_dict.
  - reflexivity.
  - intros I HI. apply elem_of_elements in HI. rewrite refusing_installed in HI.
    repeat (apply elem_of_cons in HI as [-> | HI]; [reflexivity |]).
    by apply elem_of_nil in HI.
  - reflexivity.
Defined.

(** ** Copies into the destination *)

Section paths.
Local Arguments String.append !_ _ /.
Local Arguments Ascii.eqb : simpl never.

Lemma rfind_lower (c : ascii) (s : string) : -1 ≤ Py.rfind c s.
Proof.
  induction s as [|a s IH]; simpl; [lia |].
  destruct (0 <=? Py.rfind c s); [lia |]. destruct (Ascii.eqb a c); lia.
Qed.

Lemma rfind_app_sep (c : ascii) (x b : string) :
  Py.rfind c b = -1 → Py.rfind c (x +:+ String c b) = Z.of_nat (String.length x).
Proof.
  intros Hb. induction x as [|a x IH].
  - simpl. rewrite Hb. simpl. by rewrite Ascii.eqb_refl.
  - cbn [String.append Py.rfind String.length]. rewrite IH.
    destruct (Z.leb_spec 0 (Z.of_nat (String.length x))); lia.
Qed.

(** [basename] keeps no separator. *)
Lemma basename_no_sep (p : string) : Py.rfind "/" (OsPath.basename p) = -1.
Proof.
  unfold OsPath.basename. induction p as [|a p IH]; [done |].
  pose proof (rfind_lower "/" p) as Hl. cbn [Py.rfind].
  destruct (Z.leb_spec 0 (Py.rfind "/" p)) as [Hi | Hi].
  - replace (Z.to_nat (Py.rfind "/" p + 1 + 1)) with (S (Z.to_nat (Py.rfind "/" p + 1)))
      by lia.
    exact IH.
  - assert (Hr : Py.rfind "/" p = -1) by lia.
    destruct (Ascii.eqb a "/") eqn:E; simpl.
    + exact Hr.
    + by rewrite Hr, E.
Qed.

Lemma basename_app_sep (x b : string) :
  Py.rfind "/" b = -1 → OsPath.basename (x +:+ String "/" b) = b.
Proof.
  intros Hb. unfold OsPath.basename. rewrite (rfind_app_sep _ x b Hb).
  replace (Z.to_nat (Z.of_nat (String.length x) + 1))
    with (String.length (x +:+ "/")) by (rewrite append_length; simpl; lia).
  change (String "/" b) with ("/" +:+ b). rewrite <- append_assoc.
  apply drop_app.
Qed.


Lemma rfind_take (c : ascii) (k : nat) (s : string) :
  Py.rfind c s = -1 → Py.rfind c (Py.take k s) = -1.
Proof.
  revert k. induction s as [|a s IH]; intros k Hs; [by destruct k |].
  destruct k as [|k]; [done |]. cbn [Py.take Py.rfind] in *.
  pose proof (rfind_lower c s) as Hl.
  destruct (Z.leb_spec 0 (Py.rfind c s)); [lia |].
  rewrite IH by lia. simpl. by destruct (Ascii.eqb a c).
Qed.

Lemma splitext_scan_root (n : nat) (p : string) (i d : Z) :
  (OsPath.splitext_scan n p i d).1 = p
  ∨ (OsPath.splitext_scan n p i d).1 = Py.take (Z.to_nat d) p.
Proof.
  revert i. induction n as [|n IH]; intros i; [by left |].
  cbn [OsPath.splitext_scan]. destruct (i <? d); [| by left].
  destruct (negb _); [by right | apply IH].
Qed.

(** The identifier of a package file holds no separator. *)
Lemma source_name_no_sep (source_file : string) :
  Py.rfind "/" (source_name source_file) = -1.
Proof.
  unfold source_name, OsPath.splitext.
  pose proof (basename_no_sep source_file) as Hb.
  destruct (_ <? _); [| exact Hb].
  destruct (splitext_scan_root (S (String.length (OsPath.basename source_file)))
              (OsPath.basename source_file)
              (Py.rfind "/" (OsPath.basename source_file) + 1)
              (Py.rfind "." (OsPath.basename source_file))) as [-> | ->];
    [exact Hb | by apply rfind_take].
Qed.
End paths.

(** ** The name of a preset reference *)

(** C3: the name is not cut at the first [:/] of the quoted text.  The
    group of the pattern is greedy, so a quoted text with two [:/] gives the part
    in front of the second one: ["a:/b:/c"] gives [a:/b], and
    ["A.B.1:/Custom/x:/y"] gives [A.B.1:/Custom/x], not [A.B.1].  What is
    extracted there holds a separator, which the identifier of no package
    file does, so the reference of the preset to [A.B.1] is lost: the
    reference test of [main] fails for [A.B.1] against the names
    extracted. *)
Theorem preset_greedy_capture :
  (∀ n r1 r2 post : string,
     Py.all_chars not_quote ((n +:+ ":/" +:+ r1) +:+ ":/" +:+ r2) = true →
     str_contains r2 ":/" = false →
     Re.findall pattern
       (String quote (((n +:+ ":/" +:+ r1) +:+ ":/" +:+ r2) +:+ String quote post))
     = (n +:+ ":/" +:+ r1) :: Re.findall pattern post)
  ∧ occurences (String quote ("a:/b:/c" +:+ String quote "")) = {["a:/b"]}
  ∧ occurences (String quote ("A.B.1:/Custom/x:/y" +:+ String quote ""))
    = {["A.B.1:/Custom/x"]}
  ∧ ("A.B.1" ∉ occurences (String quote ("A.B.1:/Custom/x:/y" +:+ String quote "")))
  ∧ (∀ source_file, source_name source_file ≠ "A.B.1:/Custom/x")
  ∧ check_name_variation "A.B.1"
      (elements (occurences (String quote ("A.B.1:/Custom/x:/y" +:+ String quote ""))))
    = false.
Proof.
  split; [| split; [| split; [| split; [| split]]]].
  - intros n r1 r2 post Hq Hc.
    apply (findall_found "" (n +:+ ":/" +:+ r1) r2 post); [done | done | | done].
    by destruct n.
  - reflexivity.
  - reflexivity.
  - intros Hin.
    replace (occurences (String quote ("A.B.1:/Custom/x:/y" +:+ String quote "")))
      with ({["A.B.1:/Custom/x"]} : gset string) in Hin by reflexivity.
    by apply elem_of_singleton in Hin.
  - intros source_file Heq. pose proof (source_name_no_sep source_file) as Hs.
    rewrite Heq in Hs. discriminate Hs.
  - reflexivity.
Qed.

Section copies.
Context (w : world).
Implicit Types (fs : gmap string string) (t : string * string)
               (T : list (string * string)).









End copies.


Section materialize.
Context (w : world) (verbose : bool) (mainVarList : gset string) (pool : list string)
        (destPath : option string).





End materialize.


(** With the destination inside the main library, the first run copies
    [Bob.Skin.4.var] into it; the second run scans the copy, finds its
    dependency [Eve.Tex.1] in the source library and copies that too. *)
Example nested_first_run :
  map_to_list (files (checkMissingReferences (observed nested_reader nested_files)
                        false "/vam" "/src" (Some "/vam/AddonPackages") nested_files))
  ≡ₚ [("/vam/AddonPackages/Alice.Hair.3.var", "alice");
      ("/vam/AddonPackages/Bob.Skin.4.var", "bob");
      ("/src/Bob.Skin.4.var", "bob"); ("/src/Eve.Tex.1.var", "eve")].
Proof. vm_compute map_to_list. by apply (bool_decide_unpack _). Qed.










(** * Further properties *)

(** ** [getPresetDependencies] *)

(** ** The order of [str] and of the version tuples *)

Lemma code_inj (a b : ascii) : Py.code a = Py.code b → a = b.
Proof.
  unfold Py.code. intros H.
  rewrite <- (ascii_N_embedding a), <- (ascii_N_embedding b). by rewrite H.
Qed.

Lemma str_ltb_irrefl (a : string) : Py.str_ltb a a = false.
Proof.
  induction a as [|x a IH]; [done |]. simpl.
  rewrite N.ltb_irrefl, N.eqb_refl. exact IH.
Qed.

Lemma str_ltb_trans (a b c : string) :
  Py.str_ltb a b = true → Py.str_ltb b c = true → Py.str_ltb a c = true.
Proof.
  revert b c. induction a as [|x a IH]; intros [|y b] [|z c]; simpl; try done.
  intros Hab Hbc.
  destruct (N.ltb_spec (Py.code x) (Py.code y)), (N.eqb_spec (Py.code x) (Py.code y)),
    (N.ltb_spec (Py.code y) (Py.code z)), (N.eqb_spec (Py.code y) (Py.code z));
    simpl in *; try done; try lia;
    destruct (N.ltb_spec (Py.code x) (Py.code z)); simpl; try done; try lia;
    destruct (N.eqb_spec (Py.code x) (Py.code z)); simpl; try lia.
  by apply (IH b c).
Qed.

Lemma str_ltb_total (a b : string) :
  a ≠ b → Py.str_ltb a b = true ∨ Py.str_ltb b a = true.
Proof.
  revert b. induction a as [|x a IH]; intros [|y b] Hne; simpl; try done; auto.
  destruct (N.ltb_spec (Py.code x) (Py.code y)); [by left |].
  destruct (N.ltb_spec (Py.code y) (Py.code x)); [by right |].
  assert (Hxy : Py.code x = Py.code y) by lia.
  rewrite Hxy, N.eqb_refl. simpl. apply code_inj in Hxy as ->.
  apply IH. intros ->. done.
Qed.

Lemma tuple_ltb_irrefl (x : N * string) : tuple_ltb x x = false.
Proof. unfold tuple_ltb. by rewrite N.ltb_irrefl, N.eqb_refl, str_ltb_irrefl. Qed.

Lemma tuple_ltb_trans (x y z : N * string) :
  tuple_ltb x y = true → tuple_ltb y z = true → tuple_ltb x z = true.
Proof.
  unfold tuple_ltb. intros Hxy Hyz.
  destruct (N.ltb_spec x.1 y.1), (N.eqb_spec x.1 y.1), (N.ltb_spec y.1 z.1),
    (N.eqb_spec y.1 z.1); simpl in *; try done; try lia;
    destruct (N.ltb_spec x.1 z.1); simpl; try done; try lia;
    destruct (N.eqb_spec x.1 z.1); simpl; try lia.
  by apply (str_ltb_trans _ y.2).
Qed.

Lemma tuple_ltb_total (x y : N * string) :
  x ≠ y → tuple_ltb x y = true ∨ tuple_ltb y x = true.
Proof.
  destruct x as [n f], y as [m g]. unfold tuple_ltb. simpl. intros Hne.
  destruct (N.ltb_spec n m); [by left |].
  destruct (N.ltb_spec m n); [by right |].
  assert (n = m) as -> by lia. rewrite N.eqb_refl. simpl.
  apply str_ltb_total. intros ->. done.
Qed.

(** If [z] is not above [y] and [y] is not above [x], [z] is not above [x]. *)
Lemma tuple_ltb_chain (x y z : N * string) :
  tuple_ltb x y = false → tuple_ltb y z = false → tuple_ltb x z = false.
Proof.
  intros Hxy Hyz. destruct (tuple_ltb x z) eqn:Hxz; [|done].
  destruct (decide (x = y)) as [-> | Hne]; [congruence |].
  destruct (tuple_ltb_total x y Hne) as [H | H]; [congruence |].
  rewrite (tuple_ltb_trans y x z H Hxz) in Hyz. done.
Qed.

Lemma insert_desc_maximal (x : N * string) (l : list (N * string)) :
  head_maximal l → head_maximal (insert_desc x l).
Proof.
  destruct l as [|z l]; simpl.
  - intros _ y ->%list_elem_of_singleton. apply tuple_ltb_irrefl.
  - intros Hz. destruct (tuple_ltb x z) eqn:E.
    + intros y [->|[->|Hy]%insert_desc_elem]%elem_of_cons.
      * apply tuple_ltb_irrefl.
      * destruct (tuple_ltb z x) eqn:E'; [|done].
        pose proof (tuple_ltb_trans x z x E E') as H.
        by rewrite tuple_ltb_irrefl in H.
      * apply Hz. by right.
    + intros y [->|Hy]%elem_of_cons; [apply tuple_ltb_irrefl |].
      apply (tuple_ltb_chain x z y E). by apply Hz.
Qed.

Lemma sort_reverse_maximal (l : list (N * string)) : head_maximal (sort_reverse l).
Proof. induction l as [|z l IH]; simpl; [done | by apply insert_desc_maximal]. Qed.

Lemma sort_reverse_first_maximal (l : list (N * string)) (m : N * string) t :
  sort_reverse l = m :: t → m ∈ l ∧ ∀ y, y ∈ l → tuple_ltb m y = false.
Proof.
  intros H. split.
  - apply sort_reverse_elem. rewrite H. by left.
  - intros y Hy. pose proof (sort_reverse_maximal l) as Hh. rewrite H in Hh.
    apply Hh. rewrite <- H. by apply sort_reverse_elem.
Qed.

(** Two lists with the same tuples sort to the same first tuple. *)
Lemma sort_reverse_head_same (l l' : list (N * string)) :
  (∀ x, x ∈ l ↔ x ∈ l') → head (sort_reverse l) = head (sort_reverse l').
Proof.
  intros Hsame.
  destruct (sort_reverse l) as [|m t] eqn:Hl, (sort_reverse l') as [|m' t'] eqn:Hl'.
  - done.
  - apply sort_reverse_nil in Hl. subst l.
    apply sort_reverse_first_maximal in Hl' as [Hin _].
    apply Hsame in Hin. by apply elem_of_nil in Hin.
  - apply sort_reverse_nil in Hl'. subst l'.
    apply sort_reverse_first_maximal in Hl as [Hin _].
    apply Hsame in Hin. by apply elem_of_nil in Hin.
  - apply sort_reverse_first_maximal in Hl as [Hin Hmax].
    apply sort_reverse_first_maximal in Hl' as [Hin' Hmax'].
    simpl. f_equal. destruct (decide (m = m')) as [-> | Hne]; [done |].
    destruct (tuple_ltb_total m m' Hne) as [H | H].
    + rewrite Hmax in H; [done | by apply Hsame].
    + rewrite Hmax' in H; [done | by apply Hsame].
Qed.

(** ** More on the matcher *)

(** Without an exact match the result is that of the search of rule 3. *)
Lemma find_without_exact (D : string) (pool : list string) :
  exact_match D pool = None →
  find_dependency_match D pool = fallback_match D pool.
Proof.
  intros He. unfold find_dependency_match, latest_match. rewrite He.
  destruct (Py.endswith D ".latest") eqn:Hend; [|done].
  pose proof (endswith_inv _ _ Hend) as HD.
  change (String.length ".latest") with 7%nat in HD.
  assert (Hfb : fallback_match D pool = highest_version (Py.drop_last 7 D) pool)
    by (rewrite HD at 1; apply fallback_latest).
  rewrite Hfb. by destruct (highest_version (Py.drop_last 7 D) pool).
Qed.

(** X1: when a file of the pool carries exactly the name, the matcher
    returns the first such file in the order of the pool, whatever versions
    the pool holds besides. *)
Theorem exact_match_first (D f : string) (l1 l2 : list string) :
  source_name f = D →
  (∀ g, g ∈ l1 → source_name g ≠ D) →
  find_dependency_match D (l1 ++ f :: l2) = Some f.
Proof.
  intros Hf Hl1. unfold find_dependency_match.
  assert (He : exact_match D (l1 ++ f :: l2) = Some f); [| by rewrite He].
  unfold exact_match. induction l1 as [|g l1 IH]; simpl.
  - by rewrite Hf, String.eqb_refl.
  - destruct (String.eqb_spec (source_name g) D) as [E | _].
    + exfalso. apply (Hl1 g); [by left | done].
    + apply IH. intros h Hh. apply Hl1. by right.
Qed.

Lemma exact_match_first_witness :
  find_dependency_match "Foo.Bar.2"
    ["/s/Foo.Bar.9.var"; "/s/a/Foo.Bar.2.var"; "/s/b/Foo.Bar.2.var"]
  = Some "/s/a/Foo.Bar.2.var".
Proof.
  apply (exact_match_first "Foo.Bar.2" "/s/a/Foo.Bar.2.var"
           ["/s/Foo.Bar.9.var"] ["/s/b/Foo.Bar.2.var"]).
  - reflexivity.
  - intros g ->%list_elem_of_singleton. discriminate.
Defined.

(** X2: the rule for names ending in [.latest] never changes the
    outcome: for every name the result is the exact match, or else what the
    search over the name without its last segment gives. *)
Theorem latest_rule_subsumed (D : string) (pool : list string) :
  find_dependency_match D pool
  = match exact_match D pool with
    | Some source_file => Some source_file
    | None => fallback_match D pool
    end.
Proof.
  destruct (exact_match D pool) eqn:He.
  - unfold find_dependency_match. by rewrite He.
  - by apply find_without_exact.
Qed.

Lemma exact_match_None_iff (D : string) (pool : list string) :
  exact_match D pool = None ↔ ∀ f, f ∈ pool → source_name f ≠ D.
Proof.
  split; [| apply exact_match_None].
  intros He f Hf Heq. unfold exact_match in He.
  apply find_none with (x := f) in He; [| by apply list_elem_of_In].
  rewrite Heq, String.eqb_refl in He. done.
Qed.

(** X3: the matcher returns nothing exactly when no file carries the
    name and, if the name has a dot, no file is a versioned candidate for
    the name without its last segment. *)
Theorem no_match_iff (D : string) (pool : list string) :
  find_dependency_match D pool = None
  ↔ (∀ f, f ∈ pool → source_name f ≠ D)
    ∧ (str_contains D "." = true →
       ∀ g k, g ∈ pool →
         ¬ candidate (Py.join "." (removelast (Py.split "." D))) g k).
Proof.
  rewrite <- exact_match_None_iff.
  destruct (exact_match D pool) as [f|] eqn:He.
  { unfold find_dependency_match. rewrite He. by split; [| intros [? _]]. }
  rewrite (find_without_exact D pool He). unfold fallback_match. rewrite <- split_length_contains.
  pose proof (highest_version_spec (Py.join "." (removelast (Py.split "." D))) pool)
    as Hspec.
  destruct (Nat.ltb_spec 1 (length (Py.split "." D))) as [Hlen | Hlen].
  - destruct (highest_version _ pool) as [f|]; simpl in Hspec.
    + split; [done |]. intros [_ Hno]. destruct Hspec as (Hf & n & Hc & _).
      exfalso. by apply (Hno Hlen f n).
    + split; [| done]. intros _. split; [done |]. intros _. exact Hspec.
  - split; [| done]. intros _. split; [done |]. intros Hcontra. lia.
Qed.

Lemma highest_version_maximal (base : string) (pool : list string) (f : string) :
  highest_version base pool = Some f →
  ∃ n, candidate base f n
       ∧ ∀ g k, g ∈ pool → candidate base g k →
           (k < n)%N ∨ (k = n ∧ Py.str_ltb f g = false).
Proof.
  unfold highest_version.
  destruct (sort_reverse _) as [|[n f'] t] eqn:Hsort; [done |].
  intros [= <-]. apply sort_reverse_first_maximal in Hsort as [Hin Hmax].
  apply matching_files_elem in Hin as [Hf Hc]. exists n. split; [done |].
  intros g k Hg Hgc. specialize (Hmax (k, g)).
  rewrite matching_files_elem in Hmax. specialize (Hmax (conj Hg Hgc)).
  unfold tuple_ltb in Hmax. simpl in Hmax.
  destruct (N.ltb_spec n k); [done |]. destruct (N.eqb_spec n k); simpl in *.
  - right. by split.
  - left. lia.
Qed.

(** X4: without an exact match, the returned file has the highest
    version, and among the files of that version the greatest path in the
    order of [str]. *)
Theorem version_tie_break (D : string) (pool : list string) (f : string) :
  (∀ g, g ∈ pool → source_name g ≠ D) →
  find_dependency_match D pool = Some f →
  ∃ n, candidate (Py.join "." (removelast (Py.split "." D))) f n
       ∧ ∀ g k, g ∈ pool →
           candidate (Py.join "." (removelast (Py.split "." D))) g k →
           (k < n)%N ∨ (k = n ∧ Py.str_ltb f g = false).
Proof.
  intros He%exact_match_None. rewrite (find_without_exact D pool He).
  unfold fallback_match. destruct (1 <? _)%nat; [| done].
  apply highest_version_maximal.
Qed.

Lemma version_tie_break_witness :
  ∃ n, candidate "Foo.Bar" "/s/Foo.Bar.7.var" n
       ∧ ∀ g k, g ∈ ["/s/Foo.Bar.7.var"; "/s/Foo.Bar.07.var"; "/a/Foo.Bar.7.var"] →
           candidate "Foo.Bar" g k →
           (k < n)%N ∨ (k = n ∧ Py.str_ltb "/s/Foo.Bar.7.var" g = false).
Proof.
  apply (version_tie_break "Foo.Bar.latest"
           ["/s/Foo.Bar.7.var"; "/s/Foo.Bar.07.var"; "/a/Foo.Bar.7.var"]).
  - intros g Hg. repeat (apply elem_of_cons in Hg as [-> | Hg]); try discriminate.
    by apply elem_of_nil in Hg.
  - reflexivity.
Defined.

Lemma highest_version_same (base : string) (pool pool' : list string) :
  (∀ f, f ∈ pool ↔ f ∈ pool') →
  highest_version base pool = highest_version base pool'.
Proof.
  intros Hsame. unfold highest_version.
  assert (H : head (sort_reverse (matching_files base pool))
              = head (sort_reverse (matching_files base pool'))).
  { apply sort_reverse_head_same. intros [n g].
    rewrite !matching_files_elem. by rewrite Hsame. }
  destruct (sort_reverse (matching_files base pool)),
    (sort_reverse (matching_files base pool')); simpl in H; congruence.
Qed.

Lemma NoDup_fmap_eq {A B} (f : A → B) (l : list A) (x y : A) :
  NoDup (f <$> l) → x ∈ l → y ∈ l → f x = f y → x = y.
Proof.
  induction l as [|a l IH]; [by intros _ ?%elem_of_nil |].
  rewrite fmap_cons. intros [Hhd Htl]%NoDup_cons Hx Hy Heq.
  apply elem_of_cons in Hx as [-> | Hx]; apply elem_of_cons in Hy as [-> | Hy].
  - done.
  - exfalso. apply Hhd. rewrite Heq. by apply list_elem_of_fmap_2.
  - exfalso. apply Hhd. rewrite <- Heq. by apply list_elem_of_fmap_2.
  - by apply IH.
Qed.

(** X5: over a pool whose identifiers are pairwise different, the
    result does not depend on the order in which the files are listed. *)
Theorem matcher_order_free (D : string) (pool pool' : list string) :
  NoDup (source_name <$> pool) → pool ≡ₚ pool' →
  find_dependency_match D pool = find_dependency_match D pool'.
Proof.
  intros Hnd Hperm.
  assert (Hsame : ∀ f, f ∈ pool ↔ f ∈ pool') by (intros f; by rewrite Hperm).
  assert (Hexact : exact_match D pool = exact_match D pool').
  { destruct (exact_match D pool) as [f|] eqn:He,
      (exact_match D pool') as [f'|] eqn:He'; try done.
    - apply exact_match_Some in He as [Hf Hn], He' as [Hf' Hn'].
      f_equal. apply (NoDup_fmap_eq source_name pool); try done; [|congruence].
      by apply Hsame.
    - apply exact_match_Some in He as [Hf Hn].
      rewrite exact_match_None_iff in He'. exfalso. apply (He' f); [by apply Hsame | done].
    - apply exact_match_Some in He' as [Hf Hn].
      rewrite exact_match_None_iff in He. exfalso. apply (He f'); [by apply Hsame | done]. }
  destruct (exact_match D pool) as [f|] eqn:He.
  - unfold find_dependency_match. by rewrite He, <- Hexact.
  - rewrite !find_without_exact by done. unfold fallback_match.
    destruct (1 <? _)%nat; [| done]. by apply highest_version_same.
Qed.

Lemma matcher_order_free_witness :
  find_dependency_match "Foo.Bar.latest"
    ["/s/Foo.Bar.1.var"; "/s/Foo.Bar.01.var"; "/s/Foo.Bar.10.var"]
  = find_dependency_match "Foo.Bar.latest"
      ["/s/Foo.Bar.10.var"; "/s/Foo.Bar.01.var"; "/s/Foo.Bar.1.var"].
Proof.
  apply matcher_order_free.
  - repeat constructor; intros H; repeat (apply elem_of_cons in H as [H | H]);
      try discriminate; by apply elem_of_nil in H.
  - apply NoDup_Permutation.
    + repeat constructor; intros H; repeat (apply elem_of_cons in H as [H | H]);
        try discriminate; by apply elem_of_nil in H.
    + repeat constructor; intros H; repeat (apply elem_of_cons in H as [H | H]);
        try discriminate; by apply elem_of_nil in H.
    + intros x. rewrite !elem_of_cons, !elem_of_nil. tauto.
Defined.

(** ** More on [check_name_variation] *)

(** X6: a name [b.t], with [t] digits or [latest], passes
    [check_name_variation] exactly when the list holds [b.t] itself or
    [b.latest]; another explicit version of [b] in the list does not count. *)
Theorem name_variation_versioned (b t : string) (deps : list string) :
  Py.rfind "." t = -1 →
  Py.isdigit t = true ∨ t = "latest" →
  (check_name_variation (b +:+ "." +:+ t) deps = true
   ↔ b +:+ "." +:+ t ∈ deps ∨ b +:+ ".latest" ∈ deps).
Proof.
  intros Ht Hq. unfold check_name_variation.
  rewrite (base_of_qualified b t Ht).
  change ("." +:+ t) with (String "."%char t).
  rewrite split_app, (split_no_sep _ t Ht), last_last.
  replace (Py.isdigit t || String.eqb t "latest") with true
    by (symmetry; destruct Hq as [-> | ->]; [done | apply orb_true_r]).
  by rewrite orb_true_iff, !bool_decide_eq_true.
Qed.

Lemma name_variation_versioned_witness :
  check_name_variation "Foo.Bar.3" ["Foo.Bar.2"; "Foo.Baz.latest"] = false.
Proof.
  apply not_true_is_false.
  rewrite (name_variation_versioned "Foo.Bar" "3" ["Foo.Bar.2"; "Foo.Baz.latest"]);
    [| reflexivity | by left].
  intros [H | H]; repeat (apply elem_of_cons in H as [H | H]); try discriminate;
    by apply elem_of_nil in H.
Defined.

(** ** More on the manifests *)

Lemma declared_elem (data : json) (k : string) :
  k ∈ (declared data).2
  ↔ ∃ members dependencies,
      data = JObject members
      ∧ dict_get "dependencies" members = Some (JObject dependencies)
      ∧ k ∈ keys dependencies.
Proof.
  split.
  - destruct data as [ | b | lit | s | items | members]; simpl;
      try (by intros ?%not_elem_of_empty).
    + destruct (str_contains _ _); by intros ?%not_elem_of_empty.
    + destruct (existsb _ _); by intros ?%not_elem_of_empty.
    + destruct (dict_get "dependencies" members) as [[ | ? | ? | ? | ? | deps]|] eqn:Hd; simpl;
        try (by intros ?%not_elem_of_empty).
      intros Hk%elem_of_list_to_set. by exists members, deps.
  - intros (members & deps & -> & Hd & Hk). simpl. rewrite Hd. simpl.
    by apply elem_of_list_to_set.
Qed.

Lemma declared_error (data : json) (error : exn) :
  (declared data).1 = Some error → (declared data).2 = ∅.
Proof.
  destruct data as [ | b | lit | s | items | members]; simpl; try done.
  - by destruct (str_contains _ _).
  - by destruct (existsb _ _).
  - by destruct (dict_get "dependencies" members) as [[ | ? | ? | ? | ? | deps]|].
Qed.

Lemma existsb_is_dependencies (items : list json) :
  existsb is_dependencies items = false ↔ JString "dependencies" ∉ items.
Proof.
  induction items as [|j items IH]; simpl.
  - split; [intros _; apply not_elem_of_nil | done].
  - rewrite orb_false_iff, IH, not_elem_of_cons.
    assert (Hj : is_dependencies j = false ↔ JString "dependencies" ≠ j).
    { destruct j as [ | ? | ? | s | ? | ?]; simpl; try (split; [done | done]).
      destruct (String.eqb_spec s "dependencies") as [-> | Hne]; split; try done.
      intros _ [= <-]. done. }
    by rewrite Hj.
Qed.

Lemma declared_accepted (data : json) :
  (declared data).1 = None ↔ accepted data.
Proof.
  unfold accepted. destruct data as [ | b | lit | s | items | members]; simpl.
  - split; [done | by intros [(? & ? & _) | [(? & ? & _) | (? & ? & _)]]].
  - split; [done | by intros [(? & ? & _) | [(? & ? & _) | (? & ? & _)]]].
  - split; [done | by intros [(? & ? & _) | [(? & ? & _) | (? & ? & _)]]].
  - destruct (str_contains s "dependencies") eqn:Hc; simpl; split; try done.
    + intros [(? & ? & _) | [(? & ? & _) | (s' & [= <-] & H)]]; try done. congruence.
    + intros _. right. right. by exists s.
  - destruct (existsb is_dependencies items) eqn:He; simpl; split; try done.
    + intros [(? & ? & _) | [(i & [= <-] & H) | (? & ? & _)]]; try done.
      apply existsb_is_dependencies in H. congruence.
    + intros _. right. left. exists items. split; [done |].
      by apply existsb_is_dependencies.
  - destruct (dict_get "dependencies" members) as [[ | ? | ? | ? | ? | deps]|] eqn:Hd;
      simpl; split; try done;
      try (intros [(m & [= <-] & [H | (d & H)]) | [(? & ? & _) | (? & ? & _)]];
           congruence).
    + intros _. left. exists members. split; [done |]. right. by exists deps.
    + intros _. left. exists members. split; [done |]. by left.
Qed.

(** X7: [getDependencies] returns a name exactly when the archive's
    manifest is an object whose [dependencies] is an object with that key;
    with an error it returns no name; and it returns no error exactly when
    the manifest was parsed and is an object without [dependencies] or with
    an object under it, a list without the string [dependencies], or a
    string that does not contain it. *)
Theorem archive_declares (w : world) (varFile k : string) :
  (k ∈ (getDependencies w varFile).2
   ↔ ∃ members dependencies,
       zip_meta w varFile = MetaData (JObject members)
       ∧ dict_get "dependencies" members = Some (JObject dependencies)
       ∧ k ∈ keys dependencies)
  ∧ (is_Some (getDependencies w varFile).1 → (getDependencies w varFile).2 = ∅)
  ∧ ((getDependencies w varFile).1 = None
     ↔ ∃ data, zip_meta w varFile = MetaData data ∧ accepted data).
Proof.
  setoid_rewrite <- declared_accepted.
  unfold getDependencies. destruct (zip_meta w varFile) as [e| |data]; simpl.
  - split; [| split; [done |]].
    + split; [by intros ?%not_elem_of_empty | by intros (? & ? & ? & _)].
    + split; [done | by intros (? & ? & _)].
  - split; [| split; [done |]].
    + split; [by intros ?%not_elem_of_empty | by intros (? & ? & ? & _)].
    + split; [done | by intros (? & ? & _)].
  - split; [| split].
    + rewrite declared_elem. split.
      * intros (m & d & -> & Hd & Hk). by exists m, d.
      * intros (m & d & [= ->] & Hd & Hk). by exists m, d.
    + intros [e He]. by apply (declared_error data e).
    + split; [intros H; by exists data | by intros (? & [= <-] & H)].
Qed.

(** X8: [getMetaDependencies] reads [meta.json] in the folder and
    returns a name exactly when it is an object whose [dependencies] is an
    object with that key; with an error it returns no name. *)
Theorem folder_declares (w : world) (folder k : string) :
  (k ∈ (getMetaDependencies w folder).2
   ↔ ∃ members dependencies,
       file_meta w (OsPath.join folder "meta.json") = inr (JObject members)
       ∧ dict_get "dependencies" members = Some (JObject dependencies)
       ∧ k ∈ keys dependencies)
  ∧ (is_Some (getMetaDependencies w folder).1 → (getMetaDependencies w folder).2 = ∅).
Proof.
  unfold getMetaDependencies.
  destruct (file_meta w (OsPath.join folder "meta.json")) as [e|data]; simpl.
  - split; [| done].
    split; [by intros ?%not_elem_of_empty | by intros (? & ? & ? & _)].
  - split.
    + rewrite declared_elem. split.
      * intros (m & d & -> & Hd & Hk). by exists m, d.
      * intros (m & d & [= ->] & Hd & Hk). by exists m, d.
    + intros [e He]. by apply (declared_error data e).
Qed.

(** ** More on the library scan *)

Lemma add_dependent_edge (dependent : string) (d : list (string * gset string))
    (key k x : string) :
  edge (add_dependent dependent d key) k x
  ↔ edge d k x ∨ (k = key ∧ x = dependent).
Proof.
  unfold edge, add_dependent. destruct (decide (key = k)) as [-> | Hne].
  - destruct (dict_get k d) as [ds|] eqn:Hd; rewrite dict_get_set_eq.
    + split.
      * intros (ds' & [= <-] & [Hx | ->%elem_of_singleton]%elem_of_union); eauto.
      * intros [(ds' & [= <-] & Hx) | [_ ->]]; eexists; split; try done; set_solver.
    + split.
      * intros (ds' & [= <-] & ->%elem_of_singleton). auto.
      * intros [(ds' & ? & _) | [_ ->]]; [done |]. eexists. split; [done |]. set_solver.
  - assert (H : ∀ v, dict_get k (dict_set key v d) = dict_get k d)
      by (intros v; by apply dict_get_set_ne).
    destruct (dict_get key d); rewrite H; split; auto;
      intros [? | [-> _]]; done.
Qed.

Lemma add_dependents_edge (dependent : string) (ks : list string)
    (d : list (string * gset string)) (k x : string) :
  edge (foldl (add_dependent dependent) d ks) k x
  ↔ edge d k x ∨ (k ∈ ks ∧ x = dependent).
Proof.
  revert d. induction ks as [|key ks IH]; intros d; simpl.
  - split; [auto | by intros [? | [?%elem_of_nil _]]].
  - rewrite IH, add_dependent_edge, elem_of_cons. naive_solver.
Qed.

Lemma scan_var_edge (w : world) acc (f k x : string) :
  edge (scan_var w acc f).1 k x
  ↔ edge acc.1 k x ∨ (declares w f k ∧ x = OsPath.basename f).
Proof.
  unfold scan_var, declares.
  destruct (read_manifest w f) as [[e|] deps]; simpl.
  - split; [auto | by intros [? | [[? _] _]]].
  - rewrite add_dependents_edge, elem_of_elements. naive_solver.
Qed.

Lemma scan_edge (w : world) (vars : list string) acc (k x : string) :
  edge (foldl (scan_var w) acc vars).1 k x
  ↔ edge acc.1 k x ∨ ∃ f, f ∈ vars ∧ declares w f k ∧ x = OsPath.basename f.
Proof.
  revert acc. induction vars as [|v vars IH]; intros acc; simpl.
  - split; [auto | by intros [? | (? & ?%elem_of_nil & _)]].
  - rewrite IH, scan_var_edge. setoid_rewrite elem_of_cons. naive_solver.
Qed.

Lemma add_dependent_inhabited (dependent : string) (d : list (string * gset string))
    (key : string) :
  inhabited_values d → inhabited_values (add_dependent dependent d key).
Proof.
  intros Hd k ds. unfold add_dependent. destruct (decide (key = k)) as [-> | Hne].
  - destruct (dict_get k d); rewrite dict_get_set_eq; intros [= <-]; set_solver.
  - destruct (dict_get key d); rewrite dict_get_set_ne by done; apply Hd.
Qed.

Lemma scan_var_inhabited (w : world) acc (f : string) :
  inhabited_values acc.1 → inhabited_values (scan_var w acc f).1.
Proof.
  unfold scan_var. destruct (read_manifest w f) as [[e|] deps]; simpl; [done |].
  generalize acc.1. induction (elements deps) as [|k ks IH]; intros d Hd; [done |].
  simpl. by apply IH, add_dependent_inhabited.
Qed.

(** X9: in the mapping [getAllVars] returns, [x] is a dependent of [k]
    exactly when [x] is the file name of a discovered package whose
    manifest is read without error and declares [k]. *)
Theorem scan_edges (w : world) (directoryPath k x : string) :
  (∃ dependents, dict_get k (getAllVars w directoryPath).1.2 = Some dependents
                 ∧ x ∈ dependents)
  ↔ ∃ varFilename,
      varFilename ∈ discover w directoryPath
      ∧ (read_manifest w varFilename).1 = None
      ∧ k ∈ (read_manifest w varFilename).2
      ∧ x = OsPath.basename varFilename.
Proof.
  unfold getAllVars, scan_vars. simpl.
  pose proof (scan_edge w (discover w directoryPath) ([], []) k x) as H.
  unfold edge, declares in H. rewrite H. split.
  - intros [(ds & Hd & _) | (f & Hf & [He Hk] & Hx)]; [done |]. by exists f.
  - intros (f & Hf & He & Hk & Hx). right. by exists f.
Qed.

(** X10: no key of the mapping [getAllVars] returns has an empty set
    of dependents. *)
Theorem scan_no_empty_edge (w : world) (directoryPath k : string)
    (dependents : gset string) :
  dict_get k (getAllVars w directoryPath).1.2 = Some dependents → dependents ≠ ∅.
Proof.
  unfold getAllVars, scan_vars. simpl.
  assert (H : ∀ vars acc, inhabited_values acc.1 →
                inhabited_values (foldl (scan_var w) acc vars).1).
  { induction vars as [|v vars IH]; intros acc Hacc; [done |].
    simpl. by apply IH, scan_var_inhabited. }
  apply (H (discover w directoryPath) ([], [])). by intros ? ? ?.
Qed.

Lemma scan_no_empty_edge_witness :
  dict_get "Carol.Pose.2" (getAllVars sample_world "/vam").1.2
  = Some {["Alice.Hair.3.var"]}
  ∧ ({["Alice.Hair.3.var"]} : gset string) ≠ ∅.
Proof.
  split; [reflexivity |].
  apply (scan_no_empty_edge sample_world "/vam" "Carol.Pose.2"). reflexivity.
Defined.

(** ** The preset scan *)

Lemma insert_asc_elem (x y : string) (l : list string) :
  y ∈ insert_asc x l ↔ y = x ∨ y ∈ l.
Proof.
  induction l as [|z l IH]; simpl.
  - rewrite list_elem_of_singleton, elem_of_nil. tauto.
  - destruct (Py.str_ltb z x); rewrite !elem_of_cons; [rewrite IH |]; tauto.
Qed.

Lemma sorted_str_elem (y : string) (l : list string) : y ∈ sorted_str l ↔ y ∈ l.
Proof.
  induction l as [|z l IH]; simpl; [done |].
  rewrite insert_asc_elem, IH, elem_of_cons. tauto.
Qed.

Section presets.
Context (read_text : string → exn + string).
Implicit Types (acc : list (string * gset string) * list preset_report).

Lemma scan_preset_edge acc (vap k x : string) :
  edge (scan_preset read_text acc vap).1 k x
  ↔ edge acc.1 k x
    ∨ ∃ text, read_text vap = inr text ∧ k ∈ occurences text ∧ x = presetName vap.
Proof.
  unfold scan_preset. destruct (read_text vap) as [e|text]; simpl.
  - split; [auto | by intros [? | (? & ? & _)]].
  - rewrite add_dependents_edge, elem_of_elements. split.
    + intros [? | [? ?]]; [auto | right; by exists text].
    + intros [? | (t & [= <-] & ? & ?)]; auto.
Qed.

Lemma scan_presets_edge (presets : list string) acc (k x : string) :
  edge (foldl (scan_preset read_text) acc presets).1 k x
  ↔ edge acc.1 k x
    ∨ ∃ vap text, vap ∈ presets ∧ read_text vap = inr text
                  ∧ k ∈ occurences text ∧ x = presetName vap.
Proof.
  revert acc. induction presets as [|v presets IH]; intros acc; simpl.
  - split; [auto | by intros [? | (? & ? & ?%elem_of_nil & _)]].
  - rewrite IH, scan_preset_edge. setoid_rewrite elem_of_cons. split.
    + intros [[? | (t & ? & ? & ?)] | (vap & t & ? & ? & ? & ?)]; auto.
      * right. exists v, t. auto.
      * right. exists vap, t. auto.
    + intros [? | (vap & t & [-> | ?] & ? & ? & ?)]; auto.
      * left. right. by exists t.
      * right. by exists vap, t.
Qed.

Lemma scan_preset_failed acc (vap : string) (error : exn) :
  read_text vap = inl error →
  scan_preset read_text acc vap = (acc.1, acc.2 ++ [PresetError vap error]).
Proof. unfold scan_preset. by intros ->. Qed.

Lemma scan_preset_edges_only acc acc' (vap : string) :
  acc.1 = acc'.1 →
  (scan_preset read_text acc vap).1 = (scan_preset read_text acc' vap).1.
Proof. unfold scan_preset. intros H. destruct (read_text vap); simpl; by rewrite H. Qed.

Lemma scan_presets_printed (presets : list string) acc (line : preset_report) :
  line ∈ acc.2 → line ∈ (foldl (scan_preset read_text) acc presets).2.
Proof.
  revert acc. induction presets as [|v presets IH]; intros acc H; simpl; [done |].
  apply IH. unfold scan_preset. destruct (read_text v); simpl; [|done].
  apply elem_of_app. by left.
Qed.

Lemma scan_presets_reports (presets : list string) acc (vap : string) (error : exn) :
  vap ∈ presets → read_text vap = inl error →
  PresetError vap error ∈ (foldl (scan_preset read_text) acc presets).2.
Proof.
  revert acc. induction presets as [|v presets IH]; intros acc Hin Herr;
    [by apply elem_of_nil in Hin |].
  simpl. apply elem_of_cons in Hin as [<- | Hin]; [| by apply IH].
  apply scan_presets_printed. rewrite (scan_preset_failed _ _ _ Herr). simpl.
  apply elem_of_app. right. by left.
Qed.

Lemma scan_presets_skip (presets : list string) acc acc' (vap : string) (error : exn) :
  read_text vap = inl error → acc.1 = acc'.1 →
  (foldl (scan_preset read_text) acc presets).1
  = (foldl (scan_preset read_text) acc' (filter (λ v, v ≠ vap) presets)).1.
Proof.
  intros Herr. revert acc acc'.
  induction presets as [|v presets IH]; intros acc acc' Hacc; simpl; [done |].
  destruct (decide (v = vap)) as [-> | Hne].
  - rewrite filter_cons_False by (intros H; by apply H).
    apply IH. by rewrite (scan_preset_failed _ _ _ Herr).
  - rewrite filter_cons_True by done. simpl.
    apply IH. by apply scan_preset_edges_only.
Qed.
End presets.

(** X11: in the mapping [getPresetDependencies] returns, [x] is a
    dependent of [k] exactly when the [Custom] folder exists and [x] is the
    preset name of a preset file found under it whose text is read and
    holds [k] as an occurrence of the pattern. *)
Theorem preset_edges (w : world) (read_text : string → exn + string)
    (customPath k x : string) :
  (∃ dependents,
     dict_get k (getPresetDependencies w read_text customPath).1 = Some dependents
     ∧ x ∈ dependents)
  ↔ path_exists w (OsPath.join customPath "Custom") = true
    ∧ ∃ vap text,
        vap ∈ safe_glob w (OsPath.join (OsPath.join customPath "Custom") "**/*.vap")
        ∧ read_text vap = inr text
        ∧ k ∈ occurences text
        ∧ x = presetName vap.
Proof.
  unfold getPresetDependencies.
  destruct (path_exists w (OsPath.join customPath "Custom")); simpl.
  - pose proof (scan_presets_edge read_text
                  (sorted_str (safe_glob w
                     (OsPath.join (OsPath.join customPath "Custom") "**/*.vap")))
                  ([], []) k x) as H.
    unfold edge in H. rewrite H. setoid_rewrite sorted_str_elem. split.
    + intros [(? & ? & _) | ?]; [done | by split].
    + intros [_ ?]. by right.
  - split; [by intros (? & ? & _) | by intros [? _]].
Qed.

(** X12: a preset file that cannot be read is reported and adds
    nothing: the mapping is that of the loop over the other files. *)
Theorem preset_failure_isolated (w : world) (read_text : string → exn + string)
    (customPath vap : string) (error : exn) :
  path_exists w (OsPath.join customPath "Custom") = true →
  vap ∈ safe_glob w (OsPath.join (OsPath.join customPath "Custom") "**/*.vap") →
  read_text vap = inl error →
  PresetError vap error ∈ (getPresetDependencies w read_text customPath).2
  ∧ (getPresetDependencies w read_text customPath).1
    = (foldl (scan_preset read_text) ([], [])
         (filter (λ v, v ≠ vap)
            (sorted_str (safe_glob w
               (OsPath.join (OsPath.join customPath "Custom") "**/*.vap"))))).1.
Proof.
  intros Hex Hin Herr. unfold getPresetDependencies. rewrite Hex. simpl. split.
  - apply scan_presets_reports; [by apply sorted_str_elem | done].
  - by apply (scan_presets_skip read_text _ _ _ vap error).
Qed.

Example preset_scan_sample :
  (prod_map id elements <$> (getPresetDependencies sample_presets sample_read_text "/vam").1,
   (getPresetDependencies sample_presets sample_read_text "/vam").2)
  = ([("Bob.Skin.4", ["Hair/long.vap"])],
     [PresetError "/vam/Custom/Hair/bad.vap" (LibraryError "invalid start byte")]).
Proof. reflexivity. Qed.

Lemma preset_failure_isolated_witness :
  PresetError "/vam/Custom/Hair/bad.vap" (LibraryError "invalid start byte")
  ∈ (getPresetDependencies sample_presets sample_read_text "/vam").2.
Proof.
  apply (preset_failure_isolated sample_presets sample_read_text "/vam"
           "/vam/Custom/Hair/bad.vap" (LibraryError "invalid start byte")).
  - reflexivity.
  - change (safe_glob sample_presets (OsPath.join (OsPath.join "/vam" "Custom") "**/*.vap"))
      with ["/vam/Custom/Hair/long.vap"; "/vam/Custom/Hair/bad.vap"].
    repeat constructor.
  - reflexivity.
Defined.

Section preset_name.
Local Arguments String.append !_ _ /.
Local Arguments Ascii.eqb : simpl never.

Lemma filter_split_lstrip (p : string) :
  List.filter kept_part (Py.split "/" (lstrip_sep p))
  = List.filter kept_part (Py.split "/" p).
Proof.
  induction p as [|c p IH]; [done |]. cbn [lstrip_sep].
  destruct (Ascii.eqb c "/") eqn:E; [| done].
  rewrite IH. cbn [Py.split]. by rewrite E.
Qed.

Lemma path_parts_split (p : string) :
  ∃ root, path_parts p = root ++ List.filter kept_part (Py.split "/" p)
          ∧ "Custom" ∉ root.
Proof.
  unfold path_parts. rewrite filter_split_lstrip.
  destruct (_ =? 0)%nat; [| destruct (_ =? 2)%nat]; eexists; (split; [done |]).
  - apply not_elem_of_nil.
  - by intros [=]%list_elem_of_singleton.
  - by intros [=]%list_elem_of_singleton.
Qed.

Lemma custom_index_first (i : Z) (l1 l2 : list string) :
  "Custom" ∉ l1 →
  custom_index_from i (l1 ++ "Custom" :: l2) = i + Z.of_nat (length l1).
Proof.
  revert i. induction l1 as [|a l1 IH]; intros i Hl1; simpl.
  - lia.
  - apply not_elem_of_cons in Hl1 as [Hne Hl1].
    destruct (String.eqb_spec a "Custom") as [-> | _]; [done |].
    rewrite IH by done. lia.
Qed.

Lemma filter_kept_all (l : list string) :
  Forall (λ x, kept_part x = true) l → List.filter kept_part l = l.
Proof.
  induction 1 as [|x l Hx Hl IH]; [done |]. simpl. by rewrite Hx, IH.
Qed.

Lemma filter_not_elem (x : string) (l : list string) :
  x ∉ l → x ∉ List.filter kept_part l.
Proof.
  intros Hx Hin. apply Hx. apply list_elem_of_In in Hin.
  apply filter_In in Hin as [Hin _]. by apply list_elem_of_In.
Qed.

(** X13: for a file [dir/Custom/rel], where no component of [dir] is
    [Custom] and no component of [rel] is empty or a single dot, the preset
    name is [rel]. *)
Theorem preset_name_under_custom (dir rel : string) :
  "Custom" ∉ Py.split "/" dir →
  Forall (λ x, kept_part x = true) (Py.split "/" rel) →
  presetName (dir +:+ "/Custom/" +:+ rel) = rel.
Proof.
  intros Hdir Hrel. unfold presetName.
  destruct (path_parts_split (dir +:+ "/Custom/" +:+ rel)) as (root & -> & Hroot).
  change ("/Custom/" +:+ rel) with (String "/" ("Custom" +:+ String "/" rel)).
  rewrite split_app, (split_app "/" "Custom" rel).
  change (Py.split "/" "Custom") with ["Custom"].
  rewrite List.filter_app, (List.filter_app _ ["Custom"]), (filter_kept_all _ Hrel).
  change (List.filter kept_part ["Custom"]) with ["Custom"].
  set (pre := root ++ List.filter kept_part (Py.split "/" dir)).
  replace (root ++ List.filter kept_part (Py.split "/" dir) ++ ["Custom"] ++ Py.split "/" rel)
    with (pre ++ "Custom" :: Py.split "/" rel)
    by (unfold pre; by rewrite <- app_assoc).
  assert (Hpre : "Custom" ∉ pre).
  { unfold pre. intros [H | H]%elem_of_app; [done |]. by apply filter_not_elem in H. }
  rewrite (custom_index_first 0 pre _ Hpre).
  pose proof (split_not_nil "/" rel) as Hne.
  rewrite length_app. simpl length.
  destruct (Py.split "/" rel) as [|r rs] eqn:Hs; [done |].
  replace ((0 <=? 0 + Z.of_nat (length pre))
           && (0 + Z.of_nat (length pre)
               <? Z.of_nat (length pre + S (length (r :: rs))) - 1)) with true
    by (symmetry; apply andb_true_iff; split; [apply Z.leb_le | apply Z.ltb_lt];
        simpl; lia).
  replace (Z.to_nat (0 + Z.of_nat (length pre) + 1)) with (length pre + 1)%nat by lia.
  replace (pre ++ "Custom" :: r :: rs) with ((pre ++ ["Custom"]) ++ r :: rs)
    by (by rewrite <- app_assoc).
  rewrite drop_app_length' by (rewrite length_app; simpl; lia).
  rewrite <- Hs. apply join_split.
Qed.

Lemma preset_name_under_custom_witness :
  presetName "/vam/Custom/Hair/long.vap" = "Hair/long.vap".
Proof.
  apply (preset_name_under_custom "/vam" "Hair/long.vap").
  - intros H. repeat (apply elem_of_cons in H as [H | H]); try discriminate.
    by apply elem_of_nil in H.
  - repeat constructor.
Defined.
End preset_name.

(** ** More on the classification *)

Lemma find_satisfies_None_inv (D : string) (S : gset string) :
  List.find (satisfies D) (elements S) = None →
  ∀ I, I ∈ S → satisfies D I = false.
Proof.
  intros Hf I HI. apply find_none with (x := I) in Hf; [done |].
  by apply list_elem_of_In, elem_of_elements.
Qed.

(** What each verdict says about the name *)
Lemma verdict_of_cases (S : gset string) (pool : list string) (D : string) :
  match verdict_of S pool D with
  | Skipped => blank D = true
  | Satisfied var_name =>
      blank D = false ∧ var_name ∈ S ∧ satisfies D var_name = true
  | Resolved f =>
      blank D = false ∧ (∀ I, I ∈ S → satisfies D I = false)
      ∧ find_dependency_match D pool = Some f
  | Missing =>
      blank D = false ∧ (∀ I, I ∈ S → satisfies D I = false)
      ∧ find_dependency_match D pool = None
  end.
Proof.
  unfold verdict_of. destruct (blank D) eqn:Hb; [done |].
  destruct (List.find (satisfies D) (elements S)) as [I|] eqn:Hf.
  - apply find_some in Hf as [Hin Hs]. split; [done |]. split; [| done].
    by apply elem_of_elements, list_elem_of_In.
  - pose proof (find_satisfies_None_inv D S Hf) as Hnone.
    destruct (find_dependency_match D pool) as [f|] eqn:Hm; [| done].
    by rewrite (find_dependency_match_nonempty D pool f Hb Hm).
Qed.

(** X14: in a run that reaches the classification, the destination, if
    one is given, having been created, a name of the main mapping that is
    not blank ends in exactly one of the three dicts, with its dependents:
    as already satisfied by an installed identifier that passes the test;
    else as found with the file the matcher returns; else, the matcher
    returning nothing, as missing. *)
Theorem classification_exclusive (w : world) (verbose : bool)
    (mainPath sourcePath : string) (destPath : option string)
    (fs : gmap string string) (D : string) (dependents : gset string) :
  create_destination w destPath = None →
  (D, dependents) ∈ (getAllVars w mainPath).1.2 →
  blank D = false →
  (∃ I, recorded D (checkMissingReferences w verbose mainPath sourcePath destPath fs)
        = (Some (I, dependents), None, None)
        ∧ I ∈ (getAllVars w mainPath).1.1 ∧ satisfies D I = true)
  ∨ (∃ f, recorded D (checkMissingReferences w verbose mainPath sourcePath destPath fs)
          = (None, Some (f, dependents), None)
          ∧ (∀ I, I ∈ (getAllVars w mainPath).1.1 → satisfies D I = false)
          ∧ find_dependency_match D (safe_glob w (OsPath.join sourcePath "**/*.var"))
            = Some f)
  ∨ (recorded D (checkMissingReferences w verbose mainPath sourcePath destPath fs)
     = (None, None, Some dependents)
     ∧ (∀ I, I ∈ (getAllVars w mainPath).1.1 → satisfies D I = false)
     ∧ find_dependency_match D (safe_glob w (OsPath.join sourcePath "**/*.var"))
       = None).
Proof.
  intros Hdest Hin Hb.
  pose proof (run_recorded w verbose mainPath sourcePath destPath fs D dependents
                Hdest Hin) as Hrec.
  pose proof (verdict_of_cases (getAllVars w mainPath).1.1
                (safe_glob w (OsPath.join sourcePath "**/*.var")) D) as Hv.
  destruct (verdict_of _ _ D) as [|v|f|]; simpl in Hrec.
  - congruence.
  - left. exists v. by destruct Hv as (_ & ? & ?).
  - right. left. exists f. by destruct Hv as (_ & ? & ?).
  - right. right. by destruct Hv as (_ & ? & ?).
Qed.

Lemma classification_exclusive_witness :
  (∃ I, recorded "Carol.Pose.2"
          (checkMissingReferences sample_world false "/vam" "/src" None ∅)
        = (Some (I, {["Alice.Hair.3.var"]}), None, None)
        ∧ I ∈ (getAllVars sample_world "/vam").1.1
        ∧ satisfies "Carol.Pose.2" I = true)
  ∨ (∃ f, recorded "Carol.Pose.2"
            (checkMissingReferences sample_world false "/vam" "/src" None ∅)
          = (None, Some (f, {["Alice.Hair.3.var"]}), None)
          ∧ (∀ I, I ∈ (getAllVars sample_world "/vam").1.1
                  → satisfies "Carol.Pose.2" I = false)
          ∧ find_dependency_match "Carol.Pose.2"
              (safe_glob sample_world (OsPath.join "/src" "**/*.var")) = Some f)
  ∨ (recorded "Carol.Pose.2"
       (checkMissingReferences sample_world false "/vam" "/src" None ∅)
     = (None, None, Some {["Alice.Hair.3.var"]})
     ∧ (∀ I, I ∈ (getAllVars sample_world "/vam").1.1
             → satisfies "Carol.Pose.2" I = false)
     ∧ find_dependency_match "Carol.Pose.2"
         (safe_glob sample_world (OsPath.join "/src" "**/*.var")) = None).
Proof.
  apply (classification_exclusive sample_world false "/vam" "/src" None ∅
           "Carol.Pose.2" {["Alice.Hair.3.var"]}).
  - reflexivity.
  - in_dict.
  - reflexivity.
Defined.

Lemma dict_get_Some_elem {V} (k : string) (d : list (string * V)) :
  k ∈ keys d → ∃ v, (k, v) ∈ d.
Proof.
  unfold keys. intros ((k' & v) & -> & Hin)%list_elem_of_fmap. by exists v.
Qed.

(** A name the main mapping does not hold, and every name in a run whose
    destination could not be created, is recorded nowhere. *)
Lemma run_unlisted (w : world) (verbose : bool) (mainPath sourcePath : string)
    (destPath : option string) (fs : gmap string string) (D : string) :
  D ∉ keys (getAllVars w mainPath).1.2 ∨ is_Some (create_destination w destPath) →
  recorded D (checkMissingReferences w verbose mainPath sourcePath destPath fs)
  = (None, None, None).
Proof.
  unfold checkMissingReferences.
  destruct (create_destination w destPath) as [e|]; [done |].
  intros [Hk | [e He]]; [| done].
  apply (classify_rest w verbose _ _ destPath D (Refs [] [] [] fs []) _ Hk).
Qed.

(** X15: a name is recorded as missing, with a set of dependents,
    exactly when the destination, if one is given, was created, the main
    mapping holds the name with that set, it is not blank, no installed
    identifier satisfies it, and the matcher returns nothing for it. *)
Theorem missing_iff (w : world) (verbose : bool)
    (mainPath sourcePath : string) (destPath : option string)
    (fs : gmap string string) (D : string) (dependents : gset string) :
  dict_get D (missingRefs
     (checkMissingReferences w verbose mainPath sourcePath destPath fs))
  = Some dependents
  ↔ create_destination w destPath = None
    ∧ (D, dependents) ∈ (getAllVars w mainPath).1.2
    ∧ blank D = false
    ∧ (∀ I, I ∈ (getAllVars w mainPath).1.1 → satisfies D I = false)
    ∧ find_dependency_match D (safe_glob w (OsPath.join sourcePath "**/*.var"))
      = None.
Proof.
  set (S := (getAllVars w mainPath).1.1).
  set (pool := safe_glob w (OsPath.join sourcePath "**/*.var")).
  set (deps := (getAllVars w mainPath).1.2).
  pose proof (verdict_of_cases S pool D) as Hv.
  split.
  - intros Hm.
    destruct (create_destination w destPath) as [e|] eqn:Hdest.
    { pose proof (run_unlisted w verbose mainPath sourcePath destPath fs D) as Hrest.
      unfold recorded in Hrest. rewrite Hm in Hrest.
      discriminate Hrest. right. rewrite Hdest. by eexists. }
    split; [done |].
    destruct (decide (D ∈ keys deps)) as [Hk | Hk].
    + apply dict_get_Some_elem in Hk as [ds Hin].
      pose proof (run_recorded w verbose mainPath sourcePath destPath fs D ds
                    Hdest Hin) as Hrec.
      fold S pool in Hrec.
      destruct (verdict_of S pool D); unfold recorded in Hrec; simpl in Hrec;
        injection Hrec as _ _ Hmiss; rewrite Hm in Hmiss; try done.
      injection Hmiss as <-. by destruct Hv as (? & ? & ?).
    + pose proof (run_unlisted w verbose mainPath sourcePath destPath fs D) as Hrest.
      unfold recorded in Hrest. rewrite Hm in Hrest.
      discriminate Hrest. by left.
  - intros (Hdest & Hin & Hb & Hs & Hf).
    pose proof (run_recorded w verbose mainPath sourcePath destPath fs D dependents
                  Hdest Hin) as Hrec.
    fold S pool in Hrec.
    assert (Hmissing : verdict_of S pool D = Missing).
    { unfold verdict_of. by rewrite Hb, (find_satisfies_None _ _ Hs), Hf. }
    rewrite Hmissing in Hrec. unfold recorded in Hrec. simpl in Hrec.
    by injection Hrec as _ _ ->.
Qed.

(** ** More on the copies *)








(** ** The queries of [main] *)

Section main_queries.
Local Arguments String.append !_ _ /.

Lemma str_ltb_chain (a b c : string) :
  Py.str_ltb a b = false → Py.str_ltb b c = false → Py.str_ltb a c = false.
Proof.
  intros Hab Hbc. destruct (Py.str_ltb a c) eqn:Hac; [|done].
  destruct (decide (a = b)) as [-> | Hne]; [congruence |].
  destruct (str_ltb_total a b Hne) as [H | H]; [congruence |].
  rewrite (str_ltb_trans b a c H Hac) in Hbc. done.
Qed.

#[local] Instance lower_le_total : Total lower_le.
Proof.
  intros a b. unfold lower_le.
  destruct (Py.str_ltb (Py.lower b) (Py.lower a)) eqn:H; [| by left]. right.
  destruct (Py.str_ltb (Py.lower a) (Py.lower b)) eqn:H'; [| done].
  pose proof (str_ltb_trans _ _ _ H H') as Hc. by rewrite str_ltb_irrefl in Hc.
Qed.

#[local] Instance lower_le_trans : Transitive lower_le.
Proof. intros a b c Hab Hbc. unfold lower_le in *. by apply (str_ltb_chain _ (Py.lower b)). Qed.

(** X18: the name argument loses a final [.var], and it becomes
    empty, which makes [main] list every unreferenced package, exactly for
    the arguments [""], ["var"] and [".var"]. *)
Theorem name_argument_var (name : string) :
  name_argument (name +:+ ".var") = name
  ∧ (name_argument name = "" ↔ name = "" ∨ name = "var" ∨ name = ".var").
Proof.
  split.
  - unfold name_argument. change (name +:+ ".var") with (name +:+ "." +:+ "var").
    rewrite (base_of_qualified name "var") by done.
    change ("." +:+ "var") with (String "."%char "var").
    rewrite split_app. change (Py.split "." "var") with ["var"].
    by rewrite last_last.
  - split; [| by intros [-> | [-> | ->]]].
    unfold name_argument.
    destruct (String.eqb_spec (List.last (Py.split "." name) "") "var") as [Hl | _];
      [| auto].
    intros Hj. right.
    destruct (Nat.lt_ge_cases 1 (length (Py.split "." name))) as [Hlen | Hlen].
    + right. rewrite <- (join_split "." name), (join_removelast "." _ Hlen), Hj, Hl.
      done.
    + left. pose proof (split_not_nil "." name) as Hne.
      rewrite <- (join_split "." name).
      destruct (Py.split "." name) as [|p [|q l]]; simpl in *; [done | done | lia].
Qed.

Lemma merge_entry_edge (d : list (string * gset string)) (item : string * gset string)
    (k x : string) :
  edge (merge_entry d item) k x ↔ edge d k x ∨ (k = item.1 ∧ x ∈ item.2).
Proof.
  unfold edge, merge_entry. destruct (decide (item.1 = k)) as [<- | Hne].
  - destruct (dict_get item.1 d) as [ds|] eqn:Hd; rewrite dict_get_set_eq.
    + split.
      * intros (ds' & [= <-] & [Hx | Hx]%elem_of_union); eauto.
      * intros [(ds' & [= <-] & Hx) | [_ Hx]]; eexists; split; try done; set_solver.
    + split.
      * intros (ds' & [= <-] & Hx). auto.
      * intros [(ds' & ? & _) | [_ Hx]]; [done |]. eauto.
  - assert (H : ∀ v, dict_get k (dict_set item.1 v d) = dict_get k d)
      by (intros v; by apply dict_get_set_ne).
    destruct (dict_get item.1 d); rewrite H; split; auto;
      intros [? | [-> _]]; done.
Qed.

(** X19: in the combined mapping of [main], [x] is a dependent of [k]
    exactly when it is one in the manifest mapping or in an entry of the
    preset mapping. *)
Theorem combine_edges (allVarDependencies allPresetDependencies : list (string * gset string))
    (k x : string) :
  (∃ dependents,
     dict_get k (combine_dependencies allVarDependencies allPresetDependencies)
     = Some dependents ∧ x ∈ dependents)
  ↔ (∃ dependents, dict_get k allVarDependencies = Some dependents ∧ x ∈ dependents)
    ∨ (∃ dependents, (k, dependents) ∈ allPresetDependencies ∧ x ∈ dependents).
Proof.
  unfold combine_dependencies. change (?P ↔ ?Q ∨ ?R)
    with (edge (foldl merge_entry allVarDependencies allPresetDependencies) k x
          ↔ edge allVarDependencies k x ∨ R).
  revert allVarDependencies.
  induction allPresetDependencies as [|[k' ds'] l IH]; intros d; simpl.
  - split; [auto | by intros [? | (? & ?%elem_of_nil & _)]].
  - rewrite IH, merge_entry_edge. simpl. setoid_rewrite elem_of_cons. split.
    + intros [[? | [-> ?]] | (ds & ? & ?)]; eauto.
    + intros [? | (ds & [[= -> ->] | ?] & ?)]; eauto.
Qed.

Lemma insert_lower_elem (x y : string) (l : list string) :
  y ∈ insert_lower x l ↔ y = x ∨ y ∈ l.
Proof.
  induction l as [|z l IH]; simpl.
  - rewrite list_elem_of_singleton, elem_of_nil. tauto.
  - destruct (Py.str_ltb _ _); rewrite !elem_of_cons; [rewrite IH |]; tauto.
Qed.

Lemma sorted_lower_elem (y : string) (l : list string) : y ∈ sorted_lower l ↔ y ∈ l.
Proof.
  induction l as [|z l IH]; simpl; [done |].
  rewrite insert_lower_elem, IH, elem_of_cons. tauto.
Qed.

Lemma insert_lower_sorted (x : string) (l : list string) :
  StronglySorted lower_le l → StronglySorted lower_le (insert_lower x l).
Proof.
  induction 1 as [|y l Hl IH Hy]; simpl.
  - repeat constructor.
  - destruct (Py.str_ltb (Py.lower y) (Py.lower x)) eqn:E.
    + constructor; [done |]. apply Forall_forall. intros z Hz.
      apply insert_lower_elem in Hz as [-> | Hz].
      * unfold lower_le. destruct (Py.str_ltb (Py.lower x) (Py.lower y)) eqn:E'; [| done].
        pose proof (str_ltb_trans _ _ _ E E') as Hc. by rewrite str_ltb_irrefl in Hc.
      * by apply (proj1 (Forall_forall _ _) Hy).
    + constructor; [by constructor |]. constructor; [exact E |].
      apply Forall_forall. intros z Hz.
      apply (lower_le_trans x y z E). by apply (proj1 (Forall_forall _ _) Hy).
Qed.

Lemma sorted_lower_sorted (l : list string) : StronglySorted lower_le (sorted_lower l).
Proof. induction l as [|x l IH]; simpl; [constructor | by apply insert_lower_sorted]. Qed.

(** X20: [foundDepVars] holds exactly the keys of the combined mapping
    whose lowered form contains the lowered name, in ascending order of
    their lowered forms. *)
Theorem found_dep_vars (name : string) (allDependencies : list (string * gset string))
    (key : string) :
  (key ∈ foundDepVars name allDependencies
   ↔ key ∈ keys allDependencies
     ∧ str_contains (Py.lower key) (Py.lower name) = true)
  ∧ StronglySorted lower_le (foundDepVars name allDependencies).
Proof.
  unfold foundDepVars. split; [| apply sorted_lower_sorted].
  rewrite sorted_lower_elem, list_elem_of_In, filter_In, <- list_elem_of_In. done.
Qed.

(** X21: the list of unreferenced packages is in ascending order of
    the lowered names and names no package twice. *)
Theorem unreferenced_sorted (allVarList : gset string)
    (allDepVars allDepVarsPresets : list string) :
  StronglySorted lower_le (noDependency allVarList allDepVars allDepVarsPresets)
  ∧ NoDup (noDependency allVarList allDepVars allDepVarsPresets).
Proof.
  unfold noDependency. split.
  - apply StronglySorted_merge_sort; apply _.
  - rewrite merge_sort_Permutation. apply NoDup_elements.
Qed.
End main_queries.

(** ** The identifier of a package file *)

Section identifier.
Local Arguments String.append !_ _ /.
Local Arguments Ascii.eqb : simpl never.

Lemma rfind_none_app (c : ascii) (a b : string) :
  Py.rfind c a = -1 → Py.rfind c b = -1 → Py.rfind c (a +:+ b) = -1.
Proof.
  intros Ha Hb. induction a as [|x a IH]; [done |].
  pose proof (rfind_lower c a) as Hl. simpl in *.
  destruct (Z.leb_spec 0 (Py.rfind c a)); [lia |].
  rewrite IH by lia. simpl. by destruct (Ascii.eqb x c).
Qed.

Lemma first_other_char (p : ascii → bool) (s : string) :
  Py.all_chars p s = false →
  ∃ a c b, s = a +:+ String c b ∧ Py.all_chars p a = true ∧ p c = false.
Proof.
  induction s as [|x s IH]; [done |]. simpl.
  destruct (p x) eqn:Hx; simpl.
  - intros (a & c & b & -> & Ha & Hc)%IH. exists (String x a), c, b.
    simpl. by rewrite Hx, Ha.
  - intros _. by exists "", x, s.
Qed.

Lemma char_at_dots (dots t : string) (i : nat) :
  Py.all_chars (is_char ".") dots = true → (i < String.length dots)%nat →
  Py.char_at (Z.of_nat i) (dots +:+ t) = ".".
Proof.
  unfold Py.char_at. destruct (Z.ltb_spec (Z.of_nat i) 0) as [? | _]; [lia |].
  rewrite Nat2Z.id. revert i. induction dots as [|x dots IH]; intros i Hd Hi;
    [simpl in Hi; lia |].
  simpl in Hd. apply andb_true_iff in Hd as [Hx Hd].
  destruct i as [|i]; simpl.
  - unfold is_char in Hx. by apply Ascii.eqb_eq in Hx as ->.
  - apply IH; [done | simpl in Hi; lia].
Qed.

Lemma char_at_behind (a t : string) (c : ascii) :
  Py.char_at (Z.of_nat (String.length a)) (a +:+ String c t) = String c "".
Proof.
  unfold Py.char_at. destruct (Z.ltb_spec (Z.of_nat (String.length a)) 0); [lia |].
  by rewrite Nat2Z.id, drop_app.
Qed.

(** The loop stops at the first character that is not a dot. *)
Lemma splitext_scan_stops (dots rest : string) (c : ascii) (dotIndex : nat)
    (fuel i : nat) :
  Py.all_chars (is_char ".") dots = true → is_char "." c = false →
  (String.length dots < dotIndex)%nat →
  (i ≤ String.length dots)%nat → (String.length dots - i < fuel)%nat →
  OsPath.splitext_scan fuel (dots +:+ String c rest) (Z.of_nat i) (Z.of_nat dotIndex)
  = (Py.take dotIndex (dots +:+ String c rest),
     Py.drop dotIndex (dots +:+ String c rest)).
Proof.
  intros Hd Hc Hlt. revert i. induction fuel as [|fuel IH]; intros i Hi Hf; [lia |].
  cbn [OsPath.splitext_scan].
  destruct (Z.ltb_spec (Z.of_nat i) (Z.of_nat dotIndex)); [| lia].
  destruct (decide (i = String.length dots)) as [-> | Hne].
  - rewrite char_at_behind.
    destruct (String.eqb_spec (String c "") ".") as [[= ->] | _]; [done |].
    simpl. by rewrite !Nat2Z.id.
  - rewrite char_at_dots by (done || lia). simpl.
    replace (Z.of_nat i + 1) with (Z.of_nat (S i)) by lia. apply IH; lia.
Qed.

(** Over a name of dots only the loop runs to the last dot. *)
Lemma splitext_scan_dots (dots t : string) (fuel i : nat) :
  Py.all_chars (is_char ".") dots = true →
  (i ≤ String.length dots)%nat → (String.length dots - i < fuel)%nat →
  OsPath.splitext_scan fuel (dots +:+ t) (Z.of_nat i) (Z.of_nat (String.length dots))
  = (dots +:+ t, "").
Proof.
  intros Hd. revert i. induction fuel as [|fuel IH]; intros i Hi Hf; [lia |].
  cbn [OsPath.splitext_scan].
  destruct (Z.ltb_spec (Z.of_nat i) (Z.of_nat (String.length dots))); [| done].
  rewrite char_at_dots by (done || lia). simpl.
  replace (Z.of_nat i + 1) with (Z.of_nat (S i)) by lia. apply IH; lia.
Qed.

(** X22: the identifier of the file [dir/name.ext], with no slash in
    [name] and [ext] and no dot in [ext], is [name], unless [name] consists
    of dots only, in which case it is the whole file name. *)
Theorem package_identifier (dir name ext : string) :
  Py.rfind "/" name = -1 → Py.rfind "/" ext = -1 → Py.rfind "." ext = -1 →
  source_name (dir +:+ "/" +:+ name +:+ "." +:+ ext)
  = if Py.all_chars (is_char ".") name then name +:+ "." +:+ ext else name.
Proof.
  intros Hn He Hd. unfold source_name.
  change ("/" +:+ name +:+ "." +:+ ext) with (String "/" (name +:+ String "." ext)).
  assert (Hfile : Py.rfind "/" (name +:+ String "." ext) = -1).
  { apply rfind_none_app; [done |]. simpl. by rewrite He. }
  rewrite (basename_app_sep dir _ Hfile). unfold OsPath.splitext.
  rewrite Hfile, (rfind_app_sep "." name ext Hd).
  destruct (Z.ltb_spec (-1) (Z.of_nat (String.length name))); [| lia].
  change (-1 + 1) with (Z.of_nat 0).
  destruct (Py.all_chars (is_char ".") name) eqn:Hall.
  - rewrite splitext_scan_dots; [done | done | lia |]. rewrite append_length. lia.
  - destruct (first_other_char _ _ Hall) as (dots & c & rest & -> & Hdots & Hc).
    rewrite append_assoc.
    change (String c rest +:+ String "." ext) with (String c (rest +:+ String "." ext)).
    rewrite (splitext_scan_stops dots _ c); try done; try lia.
    + cbn [fst].
      replace (dots +:+ String c (rest +:+ String "." ext))
        with ((dots +:+ String c rest) +:+ String "." ext)
        by (by rewrite append_assoc).
      apply take_app.
    + rewrite append_length. simpl. lia.
    + rewrite !append_length. simpl. lia.
Qed.

Lemma package_identifier_witness :
  source_name "/src/sub/Bob.Skin.4.var" = "Bob.Skin.4"
  ∧ source_name "/src/...var" = "...var".
Proof.
  split.
  - apply (package_identifier "/src/sub" "Bob.Skin.4" "var"); reflexivity.
  - apply (package_identifier "/src" ".." "var"); reflexivity.
Defined.
End identifier.
